(** * Geospatial measurement survey application: the upload and sample routes

    A shallow embedding of the two request handlers of
    [geo_measurement_app.py] that drive the measurement engine,
    [upload_file] (POST /upload) and [sample] (GET /sample), together with
    the state they read and write: the working directory, the flat record
    store [results/measurements.json], the console, and the trace of calls
    made to [measure_object].

    Python values are modelled as the handlers use them: [float] is an IEEE
    binary64 number (a primitive float, so that the literal [24.26] denotes
    the same double as in Python), [str] is [string], [None]-or-value is
    [option], and the values produced by [json.loads] are [pyval].

    Exceptions are modelled where the handlers can meet them: [float] on
    a form field, [json.loads], [file.save] on a path the file system
    refuses, the engine, and the accesses to the record store, which can
    fail to open, fail half way through a rewrite, or be rewritten into
    something [json.load] no longer accepts. [uuid.uuid4], [datetime.now]
    and [create_sample_image] are taken to return. A handler that lets an
    exception out has the result [Raised e], which Flask turns into an
    error response.

    The record store is taken to hold records written by this
    application, which carry every key. What [view_measurement] does
    with a record that lacks one is shown by a second text of the
    handler, [Json.view_measurement], on the value [json.load] returns,
    and the two are proved to agree on the records the application
    writes. *)

From Stdlib Require Import Floats String Ascii List Bool Arith Lia.
From stdpp Require Import gmap strings list pretty.

Set Warnings "-inexact-float,-register-all".
Open Scope string_scope.

(** ** Python values and exceptions *)

(** The dynamically typed values that flow through the handlers: what
    [json.loads] returns and what [json.dump] accepts. *)
Inductive pyval : Type :=
| PyNone
| PyBool (b : bool)
| PyInt (z : Z)
| PyFloat (f : float)
| PyStr (s : string)
| PyList (l : list pyval)
| PyDict (d : list (string * pyval)).

(** How deep the lists and dicts of a value nest: 0 for a scalar, 1 for
    a list or dict of scalars. *)
Fixpoint py_depth (v : pyval) : nat :=
  match v with
  | PyList l => S (fold_right (fun x deepest => Nat.max (py_depth x) deepest) 0 l)
  | PyDict d =>
      S (fold_right
           (fun (kv : string * pyval) deepest =>
              Nat.max (match kv with (_, x) => py_depth x end) deepest)
           0 d)
  | _ => 0
  end.

Inductive ExcClass : Type :=
| ValueError
| TypeError
| OtherException (name : string).

Record PyExc : Type := { exc_class : ExcClass; exc_str : string }.

Definition is_ValueError_or_TypeError (e : PyExc) : bool :=
  match exc_class e with
  | ValueError | TypeError => true
  | OtherException _ => false
  end.

(** A Python expression either yields a value or raises. *)
Inductive pyresult (A : Type) : Type :=
| Returned (a : A)
| Raised (e : PyExc).
Arguments Returned {A} a.
Arguments Raised {A} e.

Module Exc.
Definition bind {A B : Type} (m : pyresult A) (k : A -> pyresult B) : pyresult B :=
  match m with
  | Returned a => k a
  | Raised e => Raised e
  end.

(** [try: body except <classes>: handler]; an exception outside the
    listed classes propagates. *)
Definition try_except {A : Type} (body : pyresult A) (caught : PyExc -> bool)
    (handler : PyExc -> pyresult A) : pyresult A :=
  match body with
  | Returned a => Returned a
  | Raised e => if caught e then handler e else Raised e
  end.
End Exc.

(** ** Data model *)

Record Category : Type := { cat_id : string; cat_name : string; cat_color : string }.

Definition DEFAULT_CATEGORIES : list Category :=
  [ {| cat_id := "furniture"; cat_name := "Furniture"; cat_color := "#4285F4" |};
    {| cat_id := "electronics"; cat_name := "Electronics"; cat_color := "#34A853" |};
    {| cat_id := "clothing"; cat_name := "Clothing"; cat_color := "#FBBC05" |};
    {| cat_id := "kitchenware"; cat_name := "Kitchenware"; cat_color := "#EA4335" |};
    {| cat_id := "tools"; cat_name := "Tools"; cat_color := "#8F44AD" |};
    {| cat_id := "toys"; cat_name := "Toys"; cat_color := "#F39C12" |};
    {| cat_id := "other"; cat_name := "Other"; cat_color := "#7F8C8D" |} ].

(** The dict [measurement_data] that both handlers append to the store. *)
Record Measurement : Type := {
  m_id : string;
  m_timestamp : string;
  m_image_filename : string;
  m_output_filename : string;
  m_reference_size_mm : float;
  m_width_mm : pyval;
  m_height_mm : pyval;
  m_object_name : string;
  m_notes : string;
  m_category : string;
  m_category_data : option Category;
  m_latitude : option float;
  m_longitude : option float;
  m_accuracy : option float;
  m_weather_data : pyval
}.

(** The keyword arguments passed to [render_template_string]. *)
Record ResultContext : Type := {
  image_url : string;
  width : pyval;
  height : pyval;
  reference_size : float;
  latitude : option float;
  longitude : option float;
  accuracy : option float;
  timestamp : string;
  weather_data : pyval;
  object_name : string;
  notes : string;
  category_color : option string;
  category_name : string;
  measurement_id : string
}.

Inductive Template : Type :=
| HOME_TEMPLATE
| RESULT_TEMPLATE
| MAP_TEMPLATE
| MEASUREMENTS_TEMPLATE
| EXPORT_TEMPLATE.

Inductive Response : Type :=
| redirect (location : string)
| render_template_string (template : Template) (ctx : ResultContext).

(** An uploaded part of a multipart request (werkzeug's [FileStorage]). *)
Record FileStorage : Type := { filename : string; content : string }.

(** [bool(file)] is [bool(file.filename)]. *)
Definition file_truthy (file : FileStorage) : bool := negb (filename file =? "").

(** [request.files] and [request.form] are multi-dicts: a lookup returns
    the first value sent under the key. *)
Record Request : Type := {
  request_files : list (string * FileStorage);
  request_form : list (string * string)
}.

Fixpoint multidict_get {V : Type} (key : string) (d : list (string * V)) : option V :=
  match d with
  | [] => None
  | (k, v) :: rest => if (k =? key) then Some v else multidict_get key rest
  end.

Definition form_get (key : string) (req : Request) : option string :=
  multidict_get key (request_form req).

Definition form_get_default (key default : string) (req : Request) : string :=
  match form_get key req with
  | Some v => v
  | None => default
  end.

(** Truth value of a [str]-or-[None] form field. *)
Definition field_truthy (v : option string) : bool :=
  match v with
  | Some s => negb (s =? "")
  | None => false
  end.

(** ** The measurement engine, as the handlers see it *)

(** Modelled from the spec: the typed failures of [measure_object]. The
    function is imported from the module [measure_object_simple], which
    is absent from the sources. *)
Inductive ErrorKind : Type :=
| DecodeError
| NoReferenceFound
| NoObjectFound
| DegenerateScale.

(** Modelled from the spec: what [measure_object] returns, a measurement
    or one of the typed failures. The handlers never look at it. *)
Inductive EngineResult : Type :=
| MeasurementResult (width_mm height_mm : float)
| Failure (k : ErrorKind).

(** One run of the engine: what the call yields, the annotated image it
    writes (if it gets that far) and what it prints. *)
Record EngineRun : Type := {
  run_result : pyresult EngineResult;
  run_artifact : option string;
  run_stdout : list string
}.

(** ** Runtime: builtins, libraries and modules outside this file *)

(** What can go wrong in [file.save(filepath)], which opens the path for
    writing and then copies the upload into it. *)
Inductive SaveFault : Type :=
(** [open] raises: nothing is written. *)
| save_refused (e : PyExc)
(** The copy raises: the file is left with what had been [written]. *)
| save_cut_short (e : PyExc) (written : string).

Definition save_fault_exc (fault : SaveFault) : PyExc :=
  match fault with
  | save_refused e => e
  | save_cut_short e _ => e
  end.

(** What a record does to the store it is dumped into when its weather
    data nests deeper than the [json] module goes. *)
Inductive NestingFault : Type :=
(** [json.dump] writes the record, and [json.load] raises on the store
    from then on. *)
| breaks_load (e : PyExc)
(** [json.dump] itself raises, part of the way through the record; on
    what is left [json.load] raises [unreadable]. *)
| breaks_dump (e : PyExc) (unreadable : PyExc).

Record Runtime : Type := {
  (** [float(s)] on a [str]; [None] stands for [ValueError]. *)
  py_float : string -> option float;
  (** [json.loads(s)]; [None] stands for a raised exception. *)
  json_loads : string -> option pyval;
  (** [s.strip()]. *)
  str_strip : string -> string;
  (** [os.path.splitext(p)[1]]. *)
  splitext_ext : string -> string;
  (** [str(uuid.uuid4())] for the n-th draw of the process; that draws
      do not repeat is a hypothesis wherever it is used. *)
  uuid_str : nat -> string;
  (** What goes wrong, if anything, in [file.save(filepath)]: a name
      longer than the file system takes, a NUL byte in it, a disk that
      fills up. *)
  save_error : FileStorage -> string -> option SaveFault;
  (** What goes wrong, if anything, when a record whose weather data is
      this value is dumped into the store: [RecursionError] in
      [json.dump], or in every [json.load] after it. *)
  nesting_error : pyval -> option NestingFault;
  (** [measure_object(path, reference_size)] on the files present; the
      reference size is [None] when the caller omits the argument. *)
  engine : gmap string string -> string -> option float -> EngineRun;
  (** [create_sample_image()], from a module absent from the sources,
      taken to return: the path it returns and the bytes it writes
      there. *)
  sample_image : string * string;
  (** The module-level [CATEGORIES]. *)
  CATEGORIES : list Category
}.

(** ** World state and the handler monad *)

(** What can go wrong when the store is rewritten with
    [open(MEASUREMENTS_FILE, 'w')] followed by [json.dump]. *)
Inductive WriteFault : Type :=
(** [open] raises: the file is as it was. *)
| fails_at_open (e : PyExc)
(** [open] has emptied the file and the dump raises: what is left is cut
    short, and [json.load] raises [unreadable] on it from then on. *)
| fails_in_dump (e : PyExc) (unreadable : PyExc).

Record World : Type := {
  (** Files of the working directory other than the record store. *)
  files : gmap string string;
  (** What [json.load] on [results/measurements.json] yields: the
      records, or the exception raised on a file it cannot read. *)
  store : pyresult (list Measurement);
  (** What goes wrong, if anything, when the store is rewritten. *)
  store_write_error : option WriteFault;
  (** Invocations of [measure_object], oldest first. *)
  calls : list (string * option float);
  (** Lines printed to standard output, oldest first. *)
  console : list string;
  (** Number of [uuid.uuid4()] draws made so far. *)
  uuid_count : nat;
  (** [datetime.now().strftime("%Y-%m-%d %H:%M:%S")]. *)
  clock : string
}.

Definition set_files (fs : gmap string string) (w : World) : World :=
  {| files := fs; store := store w; store_write_error := store_write_error w;
     calls := calls w; console := console w; uuid_count := uuid_count w;
     clock := clock w |}.

Definition set_store (s : pyresult (list Measurement)) (w : World) : World :=
  {| files := files w; store := s; store_write_error := store_write_error w;
     calls := calls w; console := console w; uuid_count := uuid_count w;
     clock := clock w |}.

Definition set_store_write_error (e : option WriteFault) (w : World) : World :=
  {| files := files w; store := store w; store_write_error := e;
     calls := calls w; console := console w; uuid_count := uuid_count w;
     clock := clock w |}.

Definition set_calls (cs : list (string * option float)) (w : World) : World :=
  {| files := files w; store := store w; store_write_error := store_write_error w;
     calls := cs; console := console w; uuid_count := uuid_count w;
     clock := clock w |}.

Definition set_console (out : list string) (w : World) : World :=
  {| files := files w; store := store w; store_write_error := store_write_error w;
     calls := calls w; console := out; uuid_count := uuid_count w;
     clock := clock w |}.

Definition set_uuid_count (n : nat) (w : World) : World :=
  {| files := files w; store := store w; store_write_error := store_write_error w;
     calls := calls w; console := console w; uuid_count := n;
     clock := clock w |}.

(** A handler step: runs in a world, yields a value or raises, and leaves
    a world behind either way. *)
Definition Handler (A : Type) : Type := World -> pyresult A * World.

Definition ret {A : Type} (a : A) : Handler A := fun w => (Returned a, w).

Definition bind {A B : Type} (m : Handler A) (k : A -> Handler B) : Handler B :=
  fun w =>
    match m w with
    | (Returned a, w') => k a w'
    | (Raised e, w') => (Raised e, w')
    end.

Definition lift {A : Type} (r : pyresult A) : Handler A := fun w => (r, w).

(** [try: body except Exception as e: handler(e)]. *)
Definition try_except {A : Type} (body : Handler A) (handler : PyExc -> Handler A)
    : Handler A :=
  fun w =>
    match body w with
    | (Returned a, w') => (Returned a, w')
    | (Raised e, w') => handler e w'
    end.

Declare Scope py_scope.
Delimit Scope py_scope with py.
Notation "'let*' x ':=' c 'in' k" := (bind c (fun x => k))
  (at level 10, x pattern, c at level 100, k at level 200) : py_scope.
Notation "'exc*' x ':=' c 'in' k" := (Exc.bind c (fun x => k))
  (at level 10, x pattern, c at level 100, k at level 200) : py_scope.
Open Scope py_scope.

Definition print (line : string) : Handler unit :=
  fun w => (Returned tt, set_console (console w ++ [line]) w).

Definition now : Handler string := fun w => (Returned (clock w), w).

(** [with open(MEASUREMENTS_FILE, 'r') as f: measurements = json.load(f)]:
    the records of the store, or the exception [open] or [json.load]
    raises, on a file that is missing or cut short, or that holds a
    record nested deeper than the decoder goes. What is read depends on
    what was last written: see [dump_measurements]. *)
Definition load_measurements : Handler (list Measurement) :=
  fun w => (store w, w).

(** The string both handlers put where the measurements would go. *)
Definition placeholder : string := "Calculated automatically".

Section Handlers.

Variable rt : Runtime.

(** [file.save(filepath)]: the upload is written under the path, unless
    the path cannot be opened or the copy breaks off. *)
Definition file_save (file : FileStorage) (filepath : string) : Handler unit :=
  fun w =>
    match save_error rt file filepath with
    | Some (save_refused e) => (Raised e, w)
    | Some (save_cut_short e written) =>
        (Raised e, set_files (<[filepath := written]> (files w)) w)
    | None => (Returned tt, set_files (<[filepath := content file]> (files w)) w)
    end.

(** What a record with this weather data does to the store. A scalar
    and a flat list or dict are always written and read back. *)
Definition nesting_fault (v : pyval) : option NestingFault :=
  if (py_depth v <=? 1)%nat then None else nesting_error rt v.

Fixpoint first_nesting_fault (measurements : list Measurement) : option NestingFault :=
  match measurements with
  | [] => None
  | m :: rest =>
      match nesting_fault (m_weather_data m) with
      | Some fault => Some fault
      | None => first_nesting_fault rest
      end
  end.

(** The records of [measurements] that were not read from the store of
    [w]; those that were read are written and read again. *)
Definition added_records (measurements : list Measurement) (w : World)
    : list Measurement :=
  let kept := match store w with
              | Returned l => length l
              | Raised _ => 0
              end in
  skipn kept measurements.

(** [with open(MEASUREMENTS_FILE, 'w') as f: json.dump(measurements, f,
    indent=2)]: [open] empties the file before the dump fills it. *)
Definition dump_measurements (measurements : list Measurement) : Handler unit :=
  fun w =>
    match store_write_error w with
    | Some (fails_at_open e) => (Raised e, w)
    | Some (fails_in_dump e unreadable) => (Raised e, set_store (Raised unreadable) w)
    | None =>
        match first_nesting_fault (added_records measurements w) with
        | Some (breaks_dump e unreadable) => (Raised e, set_store (Raised unreadable) w)
        | Some (breaks_load e) => (Returned tt, set_store (Raised e) w)
        | None => (Returned tt, set_store (Returned measurements) w)
        end
    end.

(** [str(uuid.uuid4())]. *)
Definition uuid4 : Handler string :=
  fun w => (Returned (uuid_str rt (uuid_count w)), set_uuid_count (S (uuid_count w)) w).

(** A call to [measure_object]: the engine runs on the current files,
    the annotated image goes to [output_image.jpg]. *)
Definition measure_object (path : string) (reference_size : option float)
    : Handler EngineResult :=
  fun w =>
    let run := engine rt (files w) path reference_size in
    let fs := match run_artifact run with
              | Some img => <["output_image.jpg" := img]> (files w)
              | None => files w
              end in
    (run_result run,
     set_console (console w ++ run_stdout run)
       (set_files fs (set_calls (calls w ++ [(path, reference_size)]) w))).

(** [create_sample_image()]. *)
Definition create_sample_image : Handler string :=
  fun w =>
    (Returned (fst (sample_image rt)),
     set_files (<[fst (sample_image rt) := snd (sample_image rt)]> (files w)) w).

(** [float(s)] for a [str] argument. *)
Definition float_of_str (s : string) : pyresult float :=
  match py_float rt s with
  | Some f => Returned f
  | None =>
      Raised {| exc_class := ValueError;
                exc_str := "could not convert string to float: '" +:+ s +:+ "'" |}
  end.

(** [float(request.form.get('reference_size', 24.26))]. *)
Definition form_reference_size (req : Request) : pyresult float :=
  match form_get "reference_size" req with
  | Some s => float_of_str s
  | None => Returned 24.26%float
  end.

(** [json.loads(weather_data_str) if weather_data_str else None] under a
    bare [except] that falls back to [None]. *)
Definition parse_weather (weather_data_str : option string) : pyval :=
  if field_truthy weather_data_str then
    match weather_data_str with
    | Some s => match json_loads rt s with
                | Some v => v
                | None => PyNone
                end
    | None => PyNone
    end
  else PyNone.

(** [float(v) if v else None]. *)
Definition float_if_present (v : option string) : pyresult (option float) :=
  if field_truthy v then
    match v with
    | Some s => exc* f := float_of_str s in Returned (Some f)
    | None => Returned None
    end
  else Returned None.

(** The GPS block: three conversions in sequence under one
    [except (ValueError, TypeError)]. *)
Definition gps_to_float (latitude longitude accuracy : option string)
    : pyresult (option float * option float * option float) :=
  Exc.try_except
    (exc* latitude := float_if_present latitude in
     exc* longitude := float_if_present longitude in
     exc* accuracy := float_if_present accuracy in
     Returned (latitude, longitude, accuracy))
    is_ValueError_or_TypeError
    (fun _ => Returned (None, None, None)).

(** [next((c for c in CATEGORIES if c['id'] == category), None)]. *)
Definition find_category (category : string) : option Category :=
  List.find (fun c => cat_id c =? category) (CATEGORIES rt).

(** The persistence block shared by both handlers. *)
Definition save_measurement (measurement_data : Measurement) : Handler unit :=
  try_except
    (let* measurements := load_measurements in
     dump_measurements (measurements ++ [measurement_data]))
    (fun e => print ("Error saving measurement data: " +:+ exc_str e)).

Definition upload_file (req : Request) : Handler Response :=
  match multidict_get "file" (request_files req) with
  | None => ret (redirect "/")
  | Some file =>
    if filename file =? "" then ret (redirect "/")
    else if file_truthy file then
      let* reference_size := lift (form_reference_size req) in
      let object_name := str_strip rt (form_get_default "object_name" "" req) in
      let notes := str_strip rt (form_get_default "notes" "" req) in
      let category := form_get_default "category" "other" req in
      let latitude := form_get "latitude" req in
      let longitude := form_get "longitude" req in
      let accuracy := form_get "accuracy" req in
      let weather_data_str := form_get "weather" req in
      let* timestamp := now in
      let weather_data := parse_weather weather_data_str in
      let* (latitude, longitude, accuracy) :=
        lift (gps_to_float latitude longitude accuracy) in
      let category_data := find_category category in
      let* u := uuid4 in
      let filename := u +:+ splitext_ext rt (filename file) in
      let filepath := "uploads/" +:+ filename in
      let* _ := file_save file filepath in
      let* _ := measure_object filepath (Some reference_size) in
      let output_filename := "output_image.jpg" in
      let* measurement_id := uuid4 in
      let measurement_data :=
        {| m_id := measurement_id;
           m_timestamp := timestamp;
           m_image_filename := filename;
           m_output_filename := output_filename;
           m_reference_size_mm := reference_size;
           m_width_mm := PyStr placeholder;
           m_height_mm := PyStr placeholder;
           m_object_name := object_name;
           m_notes := notes;
           m_category := category;
           m_category_data := category_data;
           m_latitude := latitude;
           m_longitude := longitude;
           m_accuracy := accuracy;
           m_weather_data := weather_data |} in
      let* _ := save_measurement measurement_data in
      let category_color := option_map cat_color category_data in
      let category_name :=
        match category_data with
        | Some c => cat_name c
        | None => "Other"
        end in
      ret (render_template_string RESULT_TEMPLATE
             {| image_url := "/" +:+ output_filename;
                width := PyStr placeholder;
                height := PyStr placeholder;
                reference_size := reference_size;
                latitude := latitude;
                longitude := longitude;
                accuracy := accuracy;
                timestamp := timestamp;
                weather_data := weather_data;
                object_name := object_name;
                notes := notes;
                category_color := category_color;
                category_name := category_name;
                measurement_id := measurement_id |})
    else ret (redirect "/")
  end.

(** The weather dict literal of the sample route. *)
Definition sample_weather : pyval :=
  PyDict [ ("temperature", PyInt 22);
           ("conditions", PyStr "Partly Cloudy");
           ("humidity", PyInt 65);
           ("windSpeed", PyInt 8);
           ("location", PyStr "New York City") ].

Definition sample : Handler Response :=
  let* sample_path := create_sample_image in
  let* _ := measure_object sample_path None in
  let output_filename := "output_image.jpg" in
  let latitude := 40.7128%float in
  let longitude := (-74.0060)%float in
  let accuracy := 10.0%float in
  let* timestamp := now in
  let weather_data := sample_weather in
  let* measurement_id := uuid4 in
  let object_name := "Sample Test Object" in
  let category := "other" in
  let category_data := find_category category in
  let measurement_data :=
    {| m_id := measurement_id;
       m_timestamp := timestamp;
       m_image_filename := "sample_image.jpg";
       m_output_filename := output_filename;
       m_reference_size_mm := 24.26%float;
       m_width_mm := PyStr placeholder;
       m_height_mm := PyStr placeholder;
       m_object_name := object_name;
       m_notes := "This is a sample measurement generated by the system.";
       m_category := category;
       m_category_data := category_data;
       m_latitude := Some latitude;
       m_longitude := Some longitude;
       m_accuracy := Some accuracy;
       m_weather_data := weather_data |} in
  let* _ := save_measurement measurement_data in
  ret (render_template_string RESULT_TEMPLATE
         {| image_url := "/" +:+ output_filename;
            width := PyStr placeholder;
            height := PyStr placeholder;
            reference_size := 24.26%float;
            latitude := Some latitude;
            longitude := Some longitude;
            accuracy := Some accuracy;
            timestamp := timestamp;
            weather_data := weather_data;
            object_name := object_name;
            notes := "This is a sample measurement generated by the system.";
            category_color := option_map cat_color category_data;
            category_name :=
              match category_data with
              | Some c => cat_name c
              | None => "Other"
              end;
            measurement_id := measurement_id |}).

End Handlers.

Arguments nesting_fault : simpl never.

(** ** Naming what a request does

    The statements below refer to the one call an upload makes to the
    engine, and to what was sent in a form field, without repeating the
    handler's text. *)

(** The path under which an upload arriving in [w] is saved. *)
Definition upload_path (rt : Runtime) (file : FileStorage) (w : World) : string :=
  "uploads/" +:+ (uuid_str rt (uuid_count w) +:+ splitext_ext rt (filename file)).

(** The engine run that an upload arriving in [w] triggers. *)
Definition upload_run (rt : Runtime) (file : FileStorage) (r : float) (w : World)
    : EngineRun :=
  engine rt (<[upload_path rt file w := content file]> (files w))
    (upload_path rt file w) (Some r).

(** The same runtime with another engine plugged in. *)
Definition with_engine (eng : gmap string string -> string -> option float -> EngineRun)
    (rt : Runtime) : Runtime :=
  {| py_float := py_float rt; json_loads := json_loads rt; str_strip := str_strip rt;
     splitext_ext := splitext_ext rt; uuid_str := uuid_str rt;
     save_error := save_error rt; nesting_error := nesting_error rt; engine := eng;
     sample_image := sample_image rt; CATEGORIES := CATEGORIES rt |}.

(** A GPS field was sent, is not empty, and [float] rejects it. *)
Definition conversion_fails (rt : Runtime) (v : option string) : bool :=
  match v with
  | Some s => negb (s =? "") && match py_float rt s with Some _ => false | None => true end
  | None => false
  end.

(** The float a GPS field denotes; [None] when absent or empty. *)
Definition float_value (rt : Runtime) (v : option string) : option float :=
  match v with
  | Some s => if s =? "" then None else py_float rt s
  | None => None
  end.

(** Every id in [l] came out of one of the first [n] draws of [uuid4]. *)
Definition ids_drawn (rt : Runtime) (n : nat) (l : list Measurement) : Prop :=
  Forall (fun m => exists k, k < n /\ m_id m = uuid_str rt k) l.

(** The ids in the record store all come from draws already made. *)
Definition store_ids_drawn (rt : Runtime) (w : World) : Prop :=
  forall l, store w = Returned l -> ids_drawn rt (uuid_count w) l.

(** The world [w] with a readable and writable record store holding [l]. *)
Definition with_store (l : list Measurement) (w : World) : World :=
  set_store_write_error None (set_store (Returned l) w).

(** ** Observing a run *)

(** [P] holds of the context of the page rendered, if one is. *)
Definition every_page (resp : pyresult Response) (P : ResultContext -> Prop) : Prop :=
  forall t ctx, resp = Returned (render_template_string t ctx) -> P ctx.

(** Between [w] and [w'] the store is unchanged, or has grown by one
    record of which [P] holds, or could be read and has been left
    unreadable, so that no record can be had from it. *)
Definition every_new_record (w w' : World) (P : Measurement -> Prop) : Prop :=
  store w' = store w \/
  (exists l m, store w = Returned l /\ store w' = Returned (l ++ [m])%list /\ P m) \/
  (exists l e, store w = Returned l /\ store w' = Raised e).

(** The engine's typed failure reaches the caller: no result page is
    rendered for a request whose engine run returned a [Failure]. *)
Definition failure_is_reported (rt : Runtime) (req : Request) (w : World) : Prop :=
  forall file r,
    multidict_get "file" (request_files req) = Some file ->
    form_reference_size rt req = Returned r ->
    (exists k, run_result (upload_run rt file r w) = Returned (Failure k)) ->
    forall ctx,
      fst (upload_file rt req w) <> Returned (render_template_string RESULT_TEMPLATE ctx).

(** The request leaves the store one record longer. *)
Definition appends_one_record (rt : Runtime) (req : Request) (w : World) : Prop :=
  exists l m, store w = Returned l /\
    store (snd (upload_file rt req w)) = Returned (l ++ [m])%list.


(** ** A concrete runtime and concrete requests

    The builtins are tabulated on the strings the examples send; the
    engine is a stand-in that classifies an upload by its bytes. *)
Module Demo.

Definition float_table (s : string) : option float :=
  if s =? "30" then Some 30%float
  else if s =? "48.8584" then Some 48.8584%float
  else if s =? "2.2945" then Some 2.2945%float
  else if s =? "12.5" then Some 12.5%float
  else None.

Definition json_table (s : string) : option pyval :=
  if s =? "[21, 65]" then Some (PyList [PyInt 21; PyInt 65])
  else if s =? "[[[[[21]]]]]" then
    Some (PyList [PyList [PyList [PyList [PyList [PyInt 21]]]]])
  else if s =? "[[[[[[21]]]]]]" then
    Some (PyList [PyList [PyList [PyList [PyList [PyList [PyInt 21]]]]]])
  else if s =? "null" then Some PyNone
  else None.

Definition is_space (c : ascii) : bool :=
  let n := nat_of_ascii c in
  (n =? 32)%nat || ((9 <=? n)%nat && (n <=? 13)%nat).

Fixpoint lstrip (s : string) : string :=
  match s with
  | String c rest => if is_space c then lstrip rest else s
  | EmptyString => EmptyString
  end.

Fixpoint rstrip (s : string) : string :=
  match s with
  | String c rest =>
      match rstrip rest with
      | EmptyString => if is_space c then EmptyString else String c EmptyString
      | rest' => String c rest'
      end
  | EmptyString => EmptyString
  end.

Definition strip (s : string) : string := rstrip (lstrip s).

(** Extension of a plain file name: from its last dot on. *)
Fixpoint ext (s : string) : string :=
  match s with
  | String c rest =>
      match ext rest with
      | EmptyString => if Ascii.eqb c "." then s else EmptyString
      | e => e
      end
  | EmptyString => EmptyString
  end.

Definition uuid (n : nat) : string := "uuid-" +:+ pretty n.

Definition measure (fs : gmap string string) (path : string)
    (reference_size : option float) : EngineRun :=
  match fs !! path with
  | None =>
      {| run_result := Raised {| exc_class := OtherException "FileNotFoundError";
                                 exc_str := path |};
         run_artifact := None;
         run_stdout := [] |}
  | Some bytes =>
      if bytes =? "blank wall" then
        {| run_result := Returned (Failure NoReferenceFound);
           run_artifact := None;
           run_stdout := ["No reference object found"] |}
      else
        {| run_result := Returned (MeasurementResult 48.52%float 24.26%float);
           run_artifact := Some ("annotated " +:+ bytes);
           run_stdout := [] |}
  end.

(** An engine that reports a measurement whatever it is shown. *)
Definition measure_blind (fs : gmap string string) (path : string)
    (reference_size : option float) : EngineRun :=
  {| run_result := Returned (MeasurementResult 48.52%float 24.26%float);
     run_artifact := Some "annotated";
     run_stdout := [] |}.

(** An engine that raises on every image. *)
Definition measure_crashing (fs : gmap string string) (path : string)
    (reference_size : option float) : EngineRun :=
  {| run_result := Raised {| exc_class := OtherException "cv2.error";
                             exc_str := "bad image" |};
     run_artifact := None;
     run_stdout := [] |}.

(** Paths the file system refuses: a NUL byte, or a name under
    [uploads/] longer than 255 bytes. *)
Definition has_nul (s : string) : bool :=
  existsb (fun c => (nat_of_ascii c =? 0)%nat) (list_ascii_of_string s).

Definition refused_path (file : FileStorage) (path : string) : option SaveFault :=
  if has_nul path then
    Some (save_refused {| exc_class := ValueError; exc_str := "embedded null byte" |})
  else if (255 + String.length "uploads/" <? String.length path)%nat then
    Some (save_refused {| exc_class := OtherException "OSError";
                          exc_str := "[Errno 36] File name too long" |})
  else None.

Definition RecursionError : PyExc :=
  {| exc_class := OtherException "RecursionError";
     exc_str := "maximum recursion depth exceeded while decoding a JSON array from a unicode string" |}.

(** A [json] module that writes weather data nested up to five deep and
    reads it back when nested up to four deep. *)
Definition too_deep (v : pyval) : option NestingFault :=
  if (5 <? py_depth v)%nat then
    Some (breaks_dump
            {| exc_class := OtherException "RecursionError";
               exc_str := "maximum recursion depth exceeded while encoding a JSON object" |}
            RecursionError)
  else if (4 <? py_depth v)%nat then Some (breaks_load RecursionError)
  else None.

Definition rt : Runtime :=
  {| py_float := float_table;
     json_loads := json_table;
     str_strip := strip;
     splitext_ext := ext;
     uuid_str := uuid;
     save_error := refused_path;
     nesting_error := too_deep;
     engine := measure;
     sample_image := ("sample_image.jpg", "coin and box");
     CATEGORIES := DEFAULT_CATEGORIES |}.

(** A freshly initialised installation. *)
Definition world : World :=
  {| files := ∅;
     store := Returned [];
     store_write_error := None;
     calls := [];
     console := [];
     uuid_count := 0;
     clock := "2024-05-01 12:00:00" |}.

Definition photo : FileStorage := {| filename := "desk.jpg"; content := "coin and desk" |}.

(** A complete upload. *)
Definition req_full : Request :=
  {| request_files := [("file", photo)];
     request_form :=
       [ ("reference_size", "30"); ("object_name", " Desk "); ("notes", "oak");
         ("category", "furniture"); ("latitude", "48.8584"); ("longitude", "2.2945");
         ("accuracy", "12.5"); ("weather", "[21, 65]") ] |}.

(** A photo and nothing else. *)
Definition req_bare : Request :=
  {| request_files := [("file", photo)]; request_form := [] |}.

(** No file part at all. *)
Definition req_no_file : Request :=
  {| request_files := []; request_form := [("object_name", "Desk")] |}.

(** A file part with an empty filename. *)
Definition req_empty_name : Request :=
  {| request_files := [("file", {| filename := ""; content := "" |})];
     request_form := [] |}.

(** A photo without the reference coin. *)
Definition blank_photo : FileStorage := {| filename := "wall.png"; content := "blank wall" |}.

Definition req_blank : Request :=
  {| request_files := [("file", blank_photo)]; request_form := [] |}.

(** A reference size that is not a number. *)
Definition req_bad_reference : Request :=
  {| request_files := [("file", photo)]; request_form := [("reference_size", "abc")] |}.

(** GPS fields of which one is not a number. *)
Definition req_bad_gps : Request :=
  {| request_files := [("file", photo)];
     request_form := [("latitude", "48.8584"); ("longitude", "east"); ("accuracy", "12.5")] |}.

(** An installation whose record store no longer parses. *)
Definition world_corrupt : World :=
  set_store (Raised {| exc_class := ValueError; exc_str := "Expecting value" |}) world.

(** An installation whose record store is read-only. *)
Definition world_readonly : World :=
  set_store_write_error
    (Some (fails_at_open {| exc_class := OtherException "PermissionError";
                            exc_str := "Permission denied" |}))
    world.

Definition other : Category :=
  {| cat_id := "other"; cat_name := "Other"; cat_color := "#7F8C8D" |}.

Definition furniture : Category :=
  {| cat_id := "furniture"; cat_name := "Furniture"; cat_color := "#4285F4" |}.

(** What the sample route stores in a fresh installation. *)
Definition stored_sample : Measurement :=
  {| m_id := "uuid-0";
     m_timestamp := "2024-05-01 12:00:00";
     m_image_filename := "sample_image.jpg";
     m_output_filename := "output_image.jpg";
     m_reference_size_mm := 24.26%float;
     m_width_mm := PyStr placeholder;
     m_height_mm := PyStr placeholder;
     m_object_name := "Sample Test Object";
     m_notes := "This is a sample measurement generated by the system.";
     m_category := "other";
     m_category_data := Some other;
     m_latitude := Some 40.7128%float;
     m_longitude := Some (-74.0060)%float;
     m_accuracy := Some 10.0%float;
     m_weather_data := sample_weather |}.

(** What [req_full] stores in a fresh installation. *)
Definition stored_full : Measurement :=
  {| m_id := "uuid-1";
     m_timestamp := "2024-05-01 12:00:00";
     m_image_filename := "uuid-0.jpg";
     m_output_filename := "output_image.jpg";
     m_reference_size_mm := 30%float;
     m_width_mm := PyStr placeholder;
     m_height_mm := PyStr placeholder;
     m_object_name := "Desk";
     m_notes := "oak";
     m_category := "furniture";
     m_category_data := Some furniture;
     m_latitude := Some 48.8584%float;
     m_longitude := Some 2.2945%float;
     m_accuracy := Some 12.5%float;
     m_weather_data := PyList [PyInt 21; PyInt 65] |}.

(** What [req_bad_gps] stores in a fresh installation. *)
Definition stored_bad_gps : Measurement :=
  {| m_id := "uuid-1";
     m_timestamp := "2024-05-01 12:00:00";
     m_image_filename := "uuid-0.jpg";
     m_output_filename := "output_image.jpg";
     m_reference_size_mm := 24.26%float;
     m_width_mm := PyStr placeholder;
     m_height_mm := PyStr placeholder;
     m_object_name := "";
     m_notes := "";
     m_category := "other";
     m_category_data := Some other;
     m_latitude := None;
     m_longitude := None;
     m_accuracy := None;
     m_weather_data := PyNone |}.

(** The page shown for [req_full] in a fresh installation. *)
Definition page_full : ResultContext :=
  {| image_url := "/output_image.jpg";
     width := PyStr placeholder;
     height := PyStr placeholder;
     reference_size := 30%float;
     latitude := Some 48.8584%float;
     longitude := Some 2.2945%float;
     accuracy := Some 12.5%float;
     timestamp := "2024-05-01 12:00:00";
     weather_data := PyList [PyInt 21; PyInt 65];
     object_name := "Desk";
     notes := "oak";
     category_color := Some "#4285F4";
     category_name := "Furniture";
     measurement_id := "uuid-1" |}.

(** The page shown for [req_blank] in a fresh installation. *)
Definition page_blank : ResultContext :=
  {| image_url := "/output_image.jpg";
     width := PyStr placeholder;
     height := PyStr placeholder;
     reference_size := 24.26%float;
     latitude := None;
     longitude := None;
     accuracy := None;
     timestamp := "2024-05-01 12:00:00";
     weather_data := PyNone;
     object_name := "";
     notes := "";
     category_color := Some "#7F8C8D";
     category_name := "Other";
     measurement_id := "uuid-1" |}.

(** The installation after one visit to the sample route. *)
Definition world_after_sample : World := snd (sample rt world).

(** A photo whose name ends in an extension of 300 letters. *)
Definition long_photo : FileStorage :=
  {| filename := "a." +:+ string_of_list_ascii (repeat "x"%char 300);
     content := "coin and desk" |}.

Definition req_long_name : Request :=
  {| request_files := [("file", long_photo)]; request_form := [] |}.

(** A photo sent with weather data nested five deep. *)
Definition req_deep_weather : Request :=
  {| request_files := [("file", photo)]; request_form := [("weather", "[[[[[21]]]]]")] |}.

(** A photo sent with weather data nested six deep. *)
Definition req_deeper_weather : Request :=
  {| request_files := [("file", photo)]; request_form := [("weather", "[[[[[[21]]]]]]")] |}.

(** A runtime whose disk takes the first eight bytes of an upload and
    no more. *)
Definition small_disk (file : FileStorage) (path : string) : option SaveFault :=
  if (8 <? String.length (content file))%nat then
    Some (save_cut_short
            {| exc_class := OtherException "OSError";
               exc_str := "[Errno 28] No space left on device" |}
            (String.substring 0 8 (content file)))
  else None.

Definition rt_small_disk : Runtime :=
  {| py_float := float_table;
     json_loads := json_table;
     str_strip := strip;
     splitext_ext := ext;
     uuid_str := uuid;
     save_error := small_disk;
     nesting_error := too_deep;
     engine := measure;
     sample_image := ("sample_image.jpg", "coin and box");
     CATEGORIES := DEFAULT_CATEGORIES |}.

(** An installation whose disk fills up while the store is rewritten. *)
Definition world_disk_full : World :=
  set_store_write_error
    (Some (fails_in_dump
             {| exc_class := OtherException "OSError";
                exc_str := "[Errno 28] No space left on device" |}
             {| exc_class := ValueError; exc_str := "Expecting value" |}))
    world.

End Demo.

(** ** The routes that read the store

    [index], [list_measurements], [show_map], [view_measurement],
    [export_options], [export_csv], [export_json] and
    [share_measurement]. Records of the store are the dicts written by
    [upload_file] and [sample], so every key the readers index is
    present. *)

(** The keyword arguments of the templates other than the result page. *)
Inductive TemplateContext : Type :=
| home_context (messages : list string) (categories : list Category)
| measurements_context (measurements : list Measurement) (categories : list Category)
| map_context (measurements : list Measurement)
| no_context.

(** [render_template_string(template, **context)] for those templates. *)
Record Rendering : Type := {
  rendered_template : Template;
  rendered_context : TemplateContext
}.

(** [flask.Response(data, mimetype=..., headers=...)]. *)
Record FlaskResponse : Type := {
  data : string;
  mimetype : string;
  headers : list (string * string)
}.

(** The two serialisers of the export routes. *)
Record Exporters : Type := {
  (** The text a [csv.writer] leaves in its buffer after one [writerow]
      per row. *)
  csv_text : list (list pyval) -> string;
  (** [json.dumps(measurements, indent=2)]. *)
  json_dumps : list Measurement -> string
}.

(** [bool(v)]. *)
Definition py_truthy (v : pyval) : bool :=
  match v with
  | PyNone => false
  | PyBool b => b
  | PyInt z => negb (z =? 0)%Z
  | PyFloat f => negb (PrimFloat.eqb f 0%float)
  | PyStr s => negb (s =? "")
  | PyList l => match l with [] => false | _ :: _ => true end
  | PyDict d => match d with [] => false | _ :: _ => true end
  end.

(** [type(v).__name__]. *)
Definition py_type_name (v : pyval) : string :=
  match v with
  | PyNone => "NoneType"
  | PyBool _ => "bool"
  | PyInt _ => "int"
  | PyFloat _ => "float"
  | PyStr _ => "str"
  | PyList _ => "list"
  | PyDict _ => "dict"
  end.

(** [dict(pairs).get(key, default)]: the last pair under the key counts. *)
Definition pairs_get (key : string) (default : pyval) (pairs : list (string * pyval))
    : pyval :=
  fold_left (fun found kv => if fst kv =? key then snd kv else found) pairs default.

(** [v.get(key, default)]: only a dict has the method. *)
Definition py_get (v : pyval) (key : string) (default : pyval) : pyresult pyval :=
  match v with
  | PyDict d => Returned (pairs_get key default d)
  | _ =>
      Raised {| exc_class := OtherException "AttributeError";
                exc_str := "'" +:+ py_type_name v +:+ "' object has no attribute 'get'" |}
  end.

(** A float-or-[None] field as a value. *)
Definition py_of_option_float (v : option float) : pyval :=
  match v with
  | Some f => PyFloat f
  | None => PyNone
  end.

(** The block opening [list_measurements], [show_map], [export_csv] and
    [export_json]: the store, or the empty list and a printed line. *)
Definition load_measurements_or_empty : Handler (list Measurement) :=
  try_except load_measurements
    (fun e =>
       let measurements := [] in
       let* _ := print ("Error loading measurements: " +:+ exc_str e) in
       ret measurements).

Definition csv_header : list pyval :=
  [ PyStr "ID"; PyStr "Timestamp"; PyStr "Object Name"; PyStr "Category";
    PyStr "Width (mm)"; PyStr "Height (mm)"; PyStr "Reference Size (mm)";
    PyStr "Latitude"; PyStr "Longitude"; PyStr "Accuracy";
    PyStr "Temperature"; PyStr "Weather Conditions"; PyStr "Notes" ].

(** The temperature and conditions columns of one record. *)
Definition weather_columns (m : Measurement) : pyresult (pyval * pyval) :=
  let temperature := PyStr "" in
  let conditions := PyStr "" in
  if py_truthy (m_weather_data m) then
    exc* temperature := py_get (m_weather_data m) "temperature" (PyStr "") in
    exc* conditions := py_get (m_weather_data m) "conditions" (PyStr "") in
    Returned (temperature, conditions)
  else Returned (temperature, conditions).

(** The body of the loop of [export_csv]: the row written for [m]. *)
Definition csv_data_row (m : Measurement) : pyresult (list pyval) :=
  exc* (temperature, conditions) := weather_columns m in
  let category_name :=
    match m_category_data m with
    | Some c => cat_name c
    | None => "Other"
    end in
  Returned
    [ PyStr (m_id m); PyStr (m_timestamp m); PyStr (m_object_name m);
      PyStr category_name; m_width_mm m; m_height_mm m;
      PyFloat (m_reference_size_mm m);
      py_of_option_float (m_latitude m); py_of_option_float (m_longitude m);
      py_of_option_float (m_accuracy m);
      temperature; conditions; PyStr (m_notes m) ].

(** [for m in measurements: ... writer.writerow([...])] on the rows
    written so far. *)
Fixpoint write_data_rows (measurements : list Measurement) (output : list (list pyval))
    : pyresult (list (list pyval)) :=
  match measurements with
  | [] => Returned output
  | m :: rest =>
      exc* row := csv_data_row m in
      write_data_rows rest (output ++ [row])
  end.

Section Readers.

Variable rt : Runtime.
Variable ex : Exporters.

Definition index : Handler Rendering :=
  let messages := [] in
  ret {| rendered_template := HOME_TEMPLATE;
         rendered_context := home_context messages (CATEGORIES rt) |}.

Definition list_measurements : Handler Rendering :=
  let* measurements := load_measurements_or_empty in
  ret {| rendered_template := MEASUREMENTS_TEMPLATE;
         rendered_context := measurements_context measurements (CATEGORIES rt) |}.

Definition show_map : Handler Rendering :=
  let* measurements := load_measurements_or_empty in
  ret {| rendered_template := MAP_TEMPLATE;
         rendered_context := map_context measurements |}.

(** The [try] block of [view_measurement] either returns a redirect at
    once ([inl]) or hands the record found to the rest ([inr]). The
    record found is one written by this application: every key indexed
    after the [try] block is there. On a record lacking one the source
    raises [KeyError] at that point; [Json.view_measurement] below shows
    it. *)
Definition view_measurement (measurement_id : string) : Handler Response :=
  let* found :=
    try_except
      (let* measurements := load_measurements in
       let measurement := List.find (fun m => m_id m =? measurement_id) measurements in
       match measurement with
       | None => ret (inl (redirect "/measurements"))
       | Some m => ret (inr m)
       end)
      (fun e =>
         let* _ := print ("Error loading measurement: " +:+ exc_str e) in
         ret (inl (redirect "/measurements"))) in
  match found with
  | inl early => ret early
  | inr measurement =>
      let category_data := m_category_data measurement in
      let category_color := option_map cat_color category_data in
      let category_name :=
        match category_data with
        | Some c => cat_name c
        | None => "Other"
        end in
      ret (render_template_string RESULT_TEMPLATE
             {| image_url := "/" +:+ m_output_filename measurement;
                width := m_width_mm measurement;
                height := m_height_mm measurement;
                reference_size := m_reference_size_mm measurement;
                latitude := m_latitude measurement;
                longitude := m_longitude measurement;
                accuracy := m_accuracy measurement;
                timestamp := m_timestamp measurement;
                weather_data := m_weather_data measurement;
                object_name := m_object_name measurement;
                notes := m_notes measurement;
                category_color := category_color;
                category_name := category_name;
                measurement_id := measurement_id |})
  end.

Definition export_options : Handler Rendering :=
  ret {| rendered_template := EXPORT_TEMPLATE; rendered_context := no_context |}.

Definition export_csv : Handler FlaskResponse :=
  let* measurements := load_measurements_or_empty in
  let output := [csv_header] in
  let* output := lift (write_data_rows measurements output) in
  ret {| data := csv_text ex output;
         mimetype := "text/csv";
         headers :=
           [("Content-disposition", "attachment; filename=measurements_export.csv")] |}.

Definition export_json : Handler FlaskResponse :=
  let* measurements := load_measurements_or_empty in
  ret {| data := json_dumps ex measurements;
         mimetype := "application/json";
         headers :=
           [("Content-disposition", "attachment; filename=measurements_export.json")] |}.

Definition share_measurement (measurement_id : string) : Handler Response :=
  ret (redirect ("/view/" +:+ measurement_id)).

End Readers.

(** ** The store as [json.load] returns it

    The readers above take the store as a list of complete records.
    Here [view_measurement] is given once more, on the value [json.load]
    returns, a record being the dict it is: what the handler does with a
    record that lacks a key, which the text above cannot say, can then be
    stated, and the text above be checked against this one on the
    records the application writes. *)

(** [dict(pairs)[key]], if the key is there: the last pair under the key
    counts. *)
Definition pairs_find (key : string) (pairs : list (string * pyval)) : option pyval :=
  fold_left (fun found kv => if fst kv =? key then Some (snd kv) else found) pairs None.

Definition KeyError (key : string) : PyExc :=
  {| exc_class := OtherException "KeyError"; exc_str := "'" +:+ key +:+ "'" |}.

(** [v[key]] for a key of type [str]. *)
Definition py_getitem (v : pyval) (key : string) : pyresult pyval :=
  match v with
  | PyDict d =>
      match pairs_find key d with
      | Some x => Returned x
      | None => Raised (KeyError key)
      end
  | PyList _ =>
      Raised {| exc_class := TypeError;
                exc_str := "list indices must be integers or slices, not str" |}
  | PyStr _ =>
      Raised {| exc_class := TypeError;
                exc_str := "string indices must be integers, not 'str'" |}
  | _ =>
      Raised {| exc_class := TypeError;
                exc_str := "'" +:+ py_type_name v +:+ "' object is not subscriptable" |}
  end.

(** [iter(v)], run to its end: a list yields its items, a dict its keys,
    a string its characters. *)
Definition py_iter (v : pyval) : pyresult (list pyval) :=
  match v with
  | PyList l => Returned l
  | PyDict d => Returned (map (fun kv => PyStr (fst kv)) d)
  | PyStr s => Returned (map (fun c => PyStr (String c EmptyString)) (list_ascii_of_string s))
  | _ =>
      Raised {| exc_class := TypeError;
                exc_str := "'" +:+ py_type_name v +:+ "' object is not iterable" |}
  end.

(** [v == s] for a [str] [s]. *)
Definition py_eq_str (v : pyval) (s : string) : bool :=
  match v with
  | PyStr t => t =? s
  | _ => false
  end.

(** The dict [category_data] of a category. *)
Definition category_json (c : Category) : pyval :=
  PyDict [ ("id", PyStr (cat_id c)); ("name", PyStr (cat_name c));
           ("color", PyStr (cat_color c)) ].

Definition py_of_option_string (v : option string) : pyval :=
  match v with
  | Some s => PyStr s
  | None => PyNone
  end.

(** The dict [measurement_data] both writers build, key by key, as it
    comes back from the store. *)
Definition measurement_json (m : Measurement) : pyval :=
  PyDict
    [ ("id", PyStr (m_id m));
      ("timestamp", PyStr (m_timestamp m));
      ("image_filename", PyStr (m_image_filename m));
      ("output_filename", PyStr (m_output_filename m));
      ("reference_size_mm", PyFloat (m_reference_size_mm m));
      ("width_mm", m_width_mm m);
      ("height_mm", m_height_mm m);
      ("object_name", PyStr (m_object_name m));
      ("notes", PyStr (m_notes m));
      ("category", PyStr (m_category m));
      ("category_data",
       match m_category_data m with
       | Some c => category_json c
       | None => PyNone
       end);
      ("latitude", py_of_option_float (m_latitude m));
      ("longitude", py_of_option_float (m_longitude m));
      ("accuracy", py_of_option_float (m_accuracy m));
      ("weather_data", m_weather_data m) ].

(** What [json.load] returns on the store of [w]. *)
Definition loaded_store (w : World) : pyresult pyval :=
  match store w with
  | Returned l => Returned (PyList (map measurement_json l))
  | Raised e => Raised e
  end.

Module Json.

(** The keyword arguments of the result page as [view_measurement]
    passes them: whatever the record holds. *)
Record PageArguments : Type := {
  image_url : string;
  width : pyval;
  height : pyval;
  reference_size : pyval;
  latitude : pyval;
  longitude : pyval;
  accuracy : pyval;
  timestamp : pyval;
  weather_data : pyval;
  object_name : pyval;
  notes : pyval;
  category_color : pyval;
  category_name : pyval;
  measurement_id : string
}.

Inductive Response : Type :=
| redirect (location : string)
| render_template_string (template : Template) (arguments : PageArguments).

(** [next((m for m in measurements if m["id"] == measurement_id), None)]
    on the items of [measurements]: the items after the first match are
    not looked at. *)
Fixpoint first_with_id (measurement_id : string) (items : list pyval)
    : pyresult (option pyval) :=
  match items with
  | [] => Returned None
  | m :: rest =>
      exc* found_id := py_getitem m "id" in
      if py_eq_str found_id measurement_id then Returned (Some m)
      else first_with_id measurement_id rest
  end.

(** The keys [view_measurement] indexes after its [try] block, in the
    order in which it does. *)
Definition indexed_keys : list string :=
  [ "output_filename"; "width_mm"; "height_mm"; "reference_size_mm";
    "latitude"; "longitude"; "accuracy"; "timestamp" ].

Section View.

(** [str(v)], as an f-string formats a value that is not a string. *)
Variable py_str : pyval -> string.

Definition format_value (v : pyval) : string :=
  match v with
  | PyStr s => s
  | _ => py_str v
  end.

(** The [try] block: a redirect at once ([inl]) or the record found
    ([inr]). *)
Definition find_measurement (measurement_id : string) (loaded : pyresult pyval)
    : pyresult (Response + pyval) :=
  exc* measurements := loaded in
  exc* items := py_iter measurements in
  exc* measurement := first_with_id measurement_id items in
  match measurement with
  | None => Returned (inl (redirect "/measurements"))
  | Some m =>
      if py_truthy m then Returned (inr m)
      else Returned (inl (redirect "/measurements"))
  end.

(** What follows the [try] block. *)
Definition show_measurement (measurement_id : string) (measurement : pyval)
    : pyresult Response :=
  exc* category_data := py_get measurement "category_data" PyNone in
  exc* category_color :=
    if py_truthy category_data then py_getitem category_data "color"
    else Returned PyNone in
  exc* category_name :=
    if py_truthy category_data then py_getitem category_data "name"
    else Returned (PyStr "Other") in
  exc* output_filename := py_getitem measurement "output_filename" in
  exc* width := py_getitem measurement "width_mm" in
  exc* height := py_getitem measurement "height_mm" in
  exc* reference_size := py_getitem measurement "reference_size_mm" in
  exc* latitude := py_getitem measurement "latitude" in
  exc* longitude := py_getitem measurement "longitude" in
  exc* accuracy := py_getitem measurement "accuracy" in
  exc* timestamp := py_getitem measurement "timestamp" in
  exc* weather_data := py_get measurement "weather_data" PyNone in
  exc* object_name := py_get measurement "object_name" (PyStr "") in
  exc* notes := py_get measurement "notes" (PyStr "") in
  Returned (render_template_string RESULT_TEMPLATE
              {| image_url := "/" +:+ format_value output_filename;
                 width := width;
                 height := height;
                 reference_size := reference_size;
                 latitude := latitude;
                 longitude := longitude;
                 accuracy := accuracy;
                 timestamp := timestamp;
                 weather_data := weather_data;
                 object_name := object_name;
                 notes := notes;
                 category_color := category_color;
                 category_name := category_name;
                 measurement_id := measurement_id |}).

(** The handler on what [json.load] gave: its response, or the
    exception that leaves it, and the lines it prints. *)
Definition view_measurement (measurement_id : string) (loaded : pyresult pyval)
    : pyresult Response * list string :=
  match find_measurement measurement_id loaded with
  | Raised e =>
      (Returned (redirect "/measurements"),
       ["Error loading measurement: " +:+ exc_str e])
  | Returned (inl early) => (Returned early, [])
  | Returned (inr measurement) => (show_measurement measurement_id measurement, [])
  end.

End View.

End Json.

(** The arguments of a result page as values. *)
Definition arguments_json (ctx : ResultContext) : Json.PageArguments :=
  {| Json.image_url := image_url ctx;
     Json.width := width ctx;
     Json.height := height ctx;
     Json.reference_size := PyFloat (reference_size ctx);
     Json.latitude := py_of_option_float (latitude ctx);
     Json.longitude := py_of_option_float (longitude ctx);
     Json.accuracy := py_of_option_float (accuracy ctx);
     Json.timestamp := PyStr (timestamp ctx);
     Json.weather_data := weather_data ctx;
     Json.object_name := PyStr (object_name ctx);
     Json.notes := PyStr (notes ctx);
     Json.category_color := py_of_option_string (category_color ctx);
     Json.category_name := PyStr (category_name ctx);
     Json.measurement_id := measurement_id ctx |}.

Definition response_json (resp : pyresult Response) : pyresult Json.Response :=
  match resp with
  | Returned (redirect location) => Returned (Json.redirect location)
  | Returned (render_template_string t ctx) =>
      Returned (Json.render_template_string t (arguments_json ctx))
  | Raised e => Raised e
  end.

(** ** The route table

    One constructor per route of the application that has a handler
    above; [/static/<path>] and [/<path>] only hand files out and are left
    aside. Requests are served one after another. *)
Inductive Visit : Type :=
| GET_index
| POST_upload (req : Request)
| GET_sample
| GET_measurements
| GET_map
| GET_view (measurement_id : string)
| GET_export
| GET_export_csv
| GET_export_json
| GET_share (measurement_id : string).

(** The world a visit leaves behind. *)
Definition serve (rt : Runtime) (ex : Exporters) (v : Visit) (w : World) : World :=
  match v with
  | GET_index => snd (index rt w)
  | POST_upload req => snd (upload_file rt req w)
  | GET_sample => snd (sample rt w)
  | GET_measurements => snd (list_measurements rt w)
  | GET_map => snd (show_map w)
  | GET_view measurement_id => snd (view_measurement measurement_id w)
  | GET_export => snd (export_options w)
  | GET_export_csv => snd (export_csv ex w)
  | GET_export_json => snd (export_json ex w)
  | GET_share measurement_id => snd (share_measurement measurement_id w)
  end.

Definition serve_all (rt : Runtime) (ex : Exporters) (visits : list Visit) (w : World)
    : World :=
  fold_left (fun w v => serve rt ex v w) visits w.

(** The visits that run the engine. *)
Definition runs_engine (v : Visit) : bool :=
  match v with
  | POST_upload _ | GET_sample => true
  | _ => false
  end.

(** ** Observing the store and the readers *)

(** Everything of the world but the console. *)
Definition same_but_console (w w' : World) : Prop :=
  files w' = files w /\ store w' = store w /\
  store_write_error w' = store_write_error w /\ calls w' = calls w /\
  uuid_count w' = uuid_count w /\ clock w' = clock w.

(** [P] holds of every record of a readable store. *)
Definition store_all (P : Measurement -> Prop) (w : World) : Prop :=
  forall l, store w = Returned l -> Forall P l.

(** The ids of a readable store are pairwise distinct. *)
Definition store_ids_distinct (w : World) : Prop :=
  forall l, store w = Returned l -> NoDup (map m_id l).

(** A record as the two writers make them: placeholders for the
    measurements, the one artifact name. *)
Definition written_by_app (m : Measurement) : Prop :=
  m_width_mm m = PyStr placeholder /\ m_height_mm m = PyStr placeholder /\
  m_output_filename m = "output_image.jpg".

(** The weather of the record sends the loop of [export_csv] into
    [AttributeError]: it is truthy and not a dict. *)
Definition weather_breaks_export (m : Measurement) : bool :=
  py_truthy (m_weather_data m) &&
  match m_weather_data m with
  | PyDict _ => false
  | _ => true
  end.

(** From [w] to [w'] the draw counter has not gone back, at most one
    engine call was made, and the store is as it was, or has gained one
    record, made by the application under an id drawn in between, after
    an engine call, or was readable and no longer is. *)
Definition one_visit (rt : Runtime) (w w' : World) : Prop :=
  uuid_count w <= uuid_count w' /\
  exists cs,
    calls w' = (calls w ++ cs)%list /\ length cs <= 1 /\
    (store w' = store w \/
     (exists l m k,
        store w = Returned l /\ store w' = Returned (l ++ [m])%list /\
        length cs = 1 /\ written_by_app m /\
        m_id m = uuid_str rt k /\ uuid_count w <= k < uuid_count w') \/
     (exists l e, store w = Returned l /\ store w' = Raised e)).

(** The engine run that a sample request arriving in [w] triggers. *)
Definition sample_engine_run (rt : Runtime) (w : World) : EngineRun :=
  engine rt (<[fst (sample_image rt) := snd (sample_image rt)]> (files w))
    (fst (sample_image rt)) None.

(** ** More of the concrete installation *)
Module DemoReaders.

(** A writer that keeps the cells of type [str] and joins them with
    commas, one line per row. *)
Definition cell_text (v : pyval) : string :=
  match v with
  | PyStr s => s
  | _ => ""
  end.

Definition row_text (row : list pyval) : string :=
  String.concat "," (map cell_text row) +:+ String (ascii_of_nat 10) EmptyString.

Definition ex : Exporters :=
  {| csv_text := fun rows => String.concat "" (map row_text rows);
     json_dumps := fun ms => String.concat "," (map m_id ms) |}.

(** The installation after the sample route and then [Demo.req_bare]. *)
Definition world_two : World :=
  snd (upload_file Demo.rt Demo.req_bare Demo.world_after_sample).


(** The page [view_measurement] shows for the sample record. *)
Definition page_sample : ResultContext :=
  {| image_url := "/output_image.jpg";
     width := PyStr placeholder;
     height := PyStr placeholder;
     reference_size := 24.26%float;
     latitude := Some 40.7128%float;
     longitude := Some (-74.0060)%float;
     accuracy := Some 10.0%float;
     timestamp := "2024-05-01 12:00:00";
     weather_data := sample_weather;
     object_name := "Sample Test Object";
     notes := "This is a sample measurement generated by the system.";
     category_color := Some "#7F8C8D";
     category_name := "Other";
     measurement_id := "uuid-0" |}.

(** An upload filed under a category the installation does not know. *)
Definition req_garden : Request :=
  {| request_files := [("file", Demo.photo)];
     request_form := [("category", "garden"); ("object_name", "Spade")] |}.

(** The page shown for [req_garden] in a fresh installation. *)
Definition page_garden : ResultContext :=
  {| image_url := "/output_image.jpg";
     width := PyStr placeholder;
     height := PyStr placeholder;
     reference_size := 24.26%float;
     latitude := None;
     longitude := None;
     accuracy := None;
     timestamp := "2024-05-01 12:00:00";
     weather_data := PyNone;
     object_name := "Spade";
     notes := "";
     category_color := None;
     category_name := "Other";
     measurement_id := "uuid-1" |}.

(** A stroll through the application starting with three requests that
    reach for the engine, one of them rejected before it gets there. *)
Definition stroll : list Visit :=
  [ GET_index; GET_sample; POST_upload Demo.req_bad_reference; GET_measurements;
    POST_upload Demo.req_full; GET_view "uuid-0"; GET_map; GET_export_json ].

(** A record someone put into the store by hand. *)
Definition handmade_record : pyval :=
  PyDict [ ("id", PyStr "by-hand"); ("object_name", PyStr "Shelf");
           ("output_filename", PyStr "shelf.jpg") ].

(** [str(v)] on the values the examples format. *)
Definition str (v : pyval) : string :=
  match v with
  | PyStr s => s
  | PyNone => "None"
  | PyBool true => "True"
  | PyBool false => "False"
  | _ => "..."
  end.

(** Visits that only read. *)
Definition browse : list Visit :=
  [ GET_index; GET_measurements; GET_map; GET_view "uuid-0"; GET_view "nobody";
    GET_export; GET_export_csv; GET_export_json; GET_share "uuid-0" ].

End DemoReaders.

(** ** Running a handler symbolically *)

(** Unfolds the monadic steps of a handler body. *)
Ltac run_steps :=
  cbv beta iota delta [bind lift ret now uuid4 file_save measure_object create_sample_image
    save_measurement try_except load_measurements dump_measurements added_records print];
  simpl.

(** The GPS block never lets an exception out. *)
Lemma gps_to_float_returns (rt : Runtime) (a b c : option string) :
  exists t, gps_to_float rt a b c = Returned t.
Proof.
  unfold gps_to_float, float_if_present, float_of_str, Exc.try_except, Exc.bind.
  repeat match goal with
  | |- context [if field_truthy ?v then _ else _] => destruct (field_truthy v)
  | |- context [match ?v with Some _ => _ | None => _ end] => destruct v
  end; simpl; eauto.
Qed.

Lemma filename_eqb_false (file : FileStorage) :
  filename file <> "" -> (filename file =? "") = false.
Proof. intros H. apply String.eqb_neq. exact H. Qed.

(** The records read from the store are not looked at again once
    rewritten; the one added is. *)
Lemma skipn_kept (l : list Measurement) (m : Measurement) :
  skipn (length l) (l ++ [m]) = [m].
Proof. induction l as [| x l IH]; simpl; [ reflexivity | exact IH ]. Qed.

(** The weather of the sample route is flat and always read back. *)
Lemma nesting_fault_sample (rt : Runtime) : nesting_fault rt sample_weather = None.
Proof. reflexivity. Qed.

(** Splits on the GPS block. *)
Ltac split_gps rt req :=
  let la := fresh "la" in
  let lo := fresh "lo" in
  let ac := fresh "ac" in
  let Hgps := fresh "Hgps" in
  destruct (gps_to_float_returns rt (form_get "latitude" req) (form_get "longitude" req)
              (form_get "accuracy" req)) as [[[la lo] ac] Hgps];
  rewrite Hgps.

(** Splits on how the persistence block ends: the write refused at
    [open], cut short in the dump, done but unreadable, done; or the
    read failed. *)
Ltac split_store rt w :=
  let l := fresh "l" in
  let e := fresh "e" in
  let u := fresh "u" in
  let Hstore := fresh "Hstore" in
  let Hwrite := fresh "Hwrite" in
  let Hnesting := fresh "Hnesting" in
  destruct (store w) as [l | e] eqn:Hstore; simpl;
  [ destruct (store_write_error w) as [[e | e u] |] eqn:Hwrite; simpl;
    [ | | rewrite ?Hstore; simpl; rewrite ?skipn_kept; simpl;
          rewrite ?nesting_fault_sample;
          try (destruct (nesting_fault rt _) as [[e | e u] |] eqn:Hnesting); simpl ]
  | ];
  rewrite ?Hstore.

(** Splits on whether the upload could be saved and on how the engine
    run ended. *)
Ltac split_engine rt :=
  let e := fresh "e" in
  let o := fresh "o" in
  let Hsave := fresh "Hsave" in
  let Hrun := fresh "Hrun" in
  try (destruct (save_error rt _ _) as [[e | e written] |] eqn:Hsave; simpl; [ | | ]);
  [ .. | destruct (run_result _) as [o | e] eqn:Hrun; simpl ].

(** Enters the body of [upload_file] with nothing known of the request:
    one goal per way out up to the saving of the upload. *)
Ltac split_guards rt req :=
  unfold upload_file;
  let file := fresh "file" in
  let En := fresh "En" in
  destruct (multidict_get "file" (request_files req)) as [file |] eqn:?;
  [ destruct (filename file =? "") eqn:En;
    [ | unfold file_truthy; rewrite En; simpl; unfold bind at 1, lift;
        destruct (form_reference_size rt req) as [? | ?] eqn:?;
        [ unfold bind at 1, now; split_gps rt req | ] ]
  | ].

(** Enters the body of [upload_file] past its guards and the parsing of
    the reference size. *)
Ltac enter_upload rt req Hfile Hname Href :=
  unfold upload_file; rewrite Hfile, (filename_eqb_false _ Hname);
  unfold file_truthy; rewrite (filename_eqb_false _ Hname); simpl;
  unfold bind at 1, lift; rewrite Href; unfold bind at 1, now;
  split_gps rt req; run_steps.

Ltac no_page := intros ? ? ?; discriminate.
Ltac no_record := left; reflexivity.
Ltac no_store := right; right; eexists _, _; split; reflexivity.
Ltac the_page := let H := fresh in intros ? ? H; inversion H; repeat split; reflexivity.
Ltac the_record := right; left; eexists _, _; repeat split; reflexivity.

(** Settles a pair of statements about the page and the new record once
    the run has been executed to its end. *)
Ltac settle_outputs :=
  split; first [ no_page | the_page | no_record | the_record | no_store ].

(** ** The handlers on concrete requests *)

Example upload_full_response :
  fst (upload_file Demo.rt Demo.req_full Demo.world) =
    Returned (render_template_string RESULT_TEMPLATE Demo.page_full).
Proof. vm_compute. reflexivity. Qed.

Example upload_full_store :
  store (snd (upload_file Demo.rt Demo.req_full Demo.world)) = Returned [Demo.stored_full].
Proof. vm_compute. reflexivity. Qed.

Example upload_full_calls :
  calls (snd (upload_file Demo.rt Demo.req_full Demo.world)) =
    [("uploads/uuid-0.jpg", Some 30%float)].
Proof. vm_compute. reflexivity. Qed.

Example upload_blank_engine_run :
  upload_run Demo.rt Demo.blank_photo 24.26%float Demo.world =
    {| run_result := Returned (Failure NoReferenceFound);
       run_artifact := None;
       run_stdout := ["No reference object found"] |}.
Proof. vm_compute. reflexivity. Qed.

Example upload_blank_response :
  fst (upload_file Demo.rt Demo.req_blank Demo.world) =
    Returned (render_template_string RESULT_TEMPLATE Demo.page_blank).
Proof. vm_compute. reflexivity. Qed.

Example upload_bad_gps_store :
  store (snd (upload_file Demo.rt Demo.req_bad_gps Demo.world)) =
    Returned [Demo.stored_bad_gps].
Proof. vm_compute. reflexivity. Qed.

Example upload_bad_reference_raises :
  upload_file Demo.rt Demo.req_bad_reference Demo.world =
    (Raised {| exc_class := ValueError;
               exc_str := "could not convert string to float: 'abc'" |},
     Demo.world).
Proof. vm_compute. reflexivity. Qed.

Example sample_store :
  store (snd (sample Demo.rt Demo.world)) = Returned [Demo.stored_sample].
Proof. vm_compute. reflexivity. Qed.

Example sample_files :
  files (snd (sample Demo.rt Demo.world)) !! "output_image.jpg" =
    Some "annotated coin and box".
Proof. vm_compute. reflexivity. Qed.

Example upload_long_name_raises :
  fst (upload_file Demo.rt Demo.req_long_name Demo.world) =
    Raised {| exc_class := OtherException "OSError";
              exc_str := "[Errno 36] File name too long" |} /\
  calls (snd (upload_file Demo.rt Demo.req_long_name Demo.world)) = [] /\
  store (snd (upload_file Demo.rt Demo.req_long_name Demo.world)) = Returned [].
Proof. vm_compute. repeat split. Qed.

Example upload_on_small_disk_leaves_part_of_the_file :
  fst (upload_file Demo.rt_small_disk Demo.req_bare Demo.world) =
    Raised {| exc_class := OtherException "OSError";
              exc_str := "[Errno 28] No space left on device" |} /\
  files (snd (upload_file Demo.rt_small_disk Demo.req_bare Demo.world))
    !! "uploads/uuid-0.jpg" = Some "coin and" /\
  calls (snd (upload_file Demo.rt_small_disk Demo.req_bare Demo.world)) = [].
Proof. vm_compute. repeat split. Qed.

Example upload_deep_weather_is_saved_unreadable :
  (exists ctx,
     fst (upload_file Demo.rt Demo.req_deep_weather Demo.world) =
       Returned (render_template_string RESULT_TEMPLATE ctx)) /\
  console (snd (upload_file Demo.rt Demo.req_deep_weather Demo.world)) = [] /\
  store (snd (upload_file Demo.rt Demo.req_deep_weather Demo.world)) =
    Raised Demo.RecursionError.
Proof. split; [ eexists; vm_compute; reflexivity | vm_compute; split; reflexivity ]. Qed.

Example upload_deeper_weather_breaks_the_dump :
  (exists ctx,
     fst (upload_file Demo.rt Demo.req_deeper_weather Demo.world_after_sample) =
       Returned (render_template_string RESULT_TEMPLATE ctx)) /\
  console (snd (upload_file Demo.rt Demo.req_deeper_weather Demo.world_after_sample)) =
    [ "Error saving measurement data: " +:+
      "maximum recursion depth exceeded while encoding a JSON object" ] /\
  store (snd (upload_file Demo.rt Demo.req_deeper_weather Demo.world_after_sample)) =
    Raised Demo.RecursionError.
Proof. split; [ eexists; vm_compute; reflexivity | vm_compute; split; reflexivity ]. Qed.

Example upload_on_full_disk_empties_the_store :
  store Demo.world_after_sample = Returned [Demo.stored_sample] /\
  store (snd (upload_file Demo.rt Demo.req_full
                (set_store_write_error (store_write_error Demo.world_disk_full)
                   Demo.world_after_sample))) =
    Raised {| exc_class := ValueError; exc_str := "Expecting value" |}.
Proof. vm_compute. split; reflexivity. Qed.

(** ** Facts shared by the properties below *)

Lemma demo_uuid_inj (i j : nat) : Demo.uuid i = Demo.uuid j -> i = j.
Proof.
  unfold Demo.uuid. intros H.
  apply (inj (String.app "uuid-")) in H.
  apply (inj pretty) in H. exact H.
Qed.

Lemma store_not_appended (l : list Measurement) (m : Measurement) :
  Returned l <> Returned (l ++ [m])%list.
Proof.
  intros [= Heq]. rewrite <- (app_nil_r l) in Heq at 1.
  apply app_inv_head in Heq. discriminate Heq.
Qed.

Lemma ids_drawn_mono (rt : Runtime) (n n' : nat) (l : list Measurement) :
  n <= n' -> ids_drawn rt n l -> ids_drawn rt n' l.
Proof.
  intros Hle. unfold ids_drawn. apply List.Forall_impl.
  intros m (k & Hk & Hid). exists k. split; [lia | exact Hid].
Qed.

Lemma ids_drawn_snoc (rt : Runtime) (n k : nat) (l : list Measurement) (m : Measurement) :
  k < n -> m_id m = uuid_str rt k -> ids_drawn rt n l -> ids_drawn rt n (l ++ [m])%list.
Proof.
  intros Hk Hid Hl. unfold ids_drawn. apply List.Forall_app. split; [exact Hl |].
  constructor; [ | constructor ]. exists k. split; assumption.
Qed.

(** An id drawn now is not among those drawn before. *)
Lemma ids_drawn_fresh (rt : Runtime) (n n' : nat) (l : list Measurement) :
  (forall i j, uuid_str rt i = uuid_str rt j -> i = j) ->
  ids_drawn rt n l ->
  n <= n' ->
  ~ In (uuid_str rt n') (map m_id l).
Proof.
  intros Hinj Hdrawn Hn Hin.
  apply in_map_iff in Hin as (m & Hid & Hm).
  unfold ids_drawn in Hdrawn. rewrite List.Forall_forall in Hdrawn.
  destruct (Hdrawn m Hm) as (k & Hk & Hmk).
  rewrite Hmk in Hid. apply Hinj in Hid. lia.
Qed.

(** The GPS block as a whole: all three fields or none. *)
Lemma gps_to_float_atomic (rt : Runtime) (lat lon acc : option string) :
  gps_to_float rt lat lon acc =
    if conversion_fails rt lat || conversion_fails rt lon || conversion_fails rt acc
    then Returned (None, None, None)
    else Returned (float_value rt lat, float_value rt lon, float_value rt acc).
Proof.
  unfold gps_to_float, float_if_present, float_of_str, conversion_fails, float_value,
    field_truthy, Exc.try_except, Exc.bind.
  destruct lat as [s1 |]; [ destruct (s1 =? ""); simpl; [ | destruct (py_float rt s1) ] | ];
  (destruct lon as [s2 |]; [ destruct (s2 =? ""); simpl; [ | destruct (py_float rt s2) ] | ]);
  (destruct acc as [s3 |]; [ destruct (s3 =? ""); simpl; [ | destruct (py_float rt s3) ] | ]);
  reflexivity.
Qed.

(** A goal whose premise says the store has gained [m], on a path of the
    run that has not added to it. *)
Ltac not_appended l m :=
  let Habs := fresh "Habs" in
  intros Habs; first [ discriminate Habs | destruct (store_not_appended l m Habs) ].

(** Past the guards and the saving of the upload, the page rendered
    after the engine has returned is one and the same whatever engine is
    plugged in and whatever it returned. *)
Lemma upload_file_page_fixed (rt : Runtime) (req : Request) (w : World)
    (file : FileStorage) (r : float) :
  multidict_get "file" (request_files req) = Some file ->
  filename file <> "" ->
  form_reference_size rt req = Returned r ->
  save_error rt file (upload_path rt file w) = None ->
  exists ctx, forall eng o,
    run_result (upload_run (with_engine eng rt) file r w) = Returned o ->
    fst (upload_file (with_engine eng rt) req w) =
      Returned (render_template_string RESULT_TEMPLATE ctx).
Proof.
  intros Hfile Hname Href Hsave.
  destruct (gps_to_float_returns rt (form_get "latitude" req) (form_get "longitude" req)
              (form_get "accuracy" req)) as [[[la lo] ac] Hgps].
  eexists. intros eng o Hrun.
  unfold upload_file. rewrite Hfile, (filename_eqb_false _ Hname).
  unfold file_truthy. rewrite (filename_eqb_false _ Hname). simpl.
  unfold bind at 1, lift.
  change (form_reference_size (with_engine eng rt) req) with (form_reference_size rt req).
  rewrite Href. unfold bind at 1, now.
  change (gps_to_float (with_engine eng rt)) with (gps_to_float rt).
  rewrite Hgps. run_steps.
  change (parse_weather (with_engine eng rt)) with (parse_weather rt).
  change (find_category (with_engine eng rt)) with (find_category rt).
  unfold upload_path in Hsave. rewrite Hsave. simpl.
  unfold upload_run, upload_path in Hrun. simpl in Hrun. rewrite Hrun. simpl.
  split_store (with_engine eng rt) w; reflexivity.
Qed.

(** ** What the caller gets back *)

(** C1: whatever the request and whatever the engine computed, a page
    rendered by [upload_file] shows the string "Calculated automatically"
    as width and as height, and a record it adds to the store carries the
    same string in [width_mm] and [height_mm]: the numbers of
    [measure_object] reach neither. *)
Theorem upload_file_substitutes_placeholder (rt : Runtime) (req : Request) (w : World) :
  every_page (fst (upload_file rt req w))
    (fun ctx => width ctx = PyStr placeholder /\ height ctx = PyStr placeholder) /\
  every_new_record w (snd (upload_file rt req w))
    (fun m => m_width_mm m = PyStr placeholder /\ m_height_mm m = PyStr placeholder).
Proof.
  unfold every_page, every_new_record.
  split_guards rt req; run_steps; try solve [settle_outputs].
  split_engine rt; try solve [settle_outputs].
  split_store rt w; settle_outputs.
Qed.

(** The engine measured 48.52 by 24.26 mm on this upload; the page shows
    the placeholder. *)
Lemma upload_file_substitutes_placeholder_witness :
  run_result (upload_run Demo.rt Demo.photo 30%float Demo.world) =
    Returned (MeasurementResult 48.52%float 24.26%float) /\
  width Demo.page_full = PyStr "Calculated automatically" /\
  height Demo.page_full = PyStr "Calculated automatically".
Proof.
  split; [ vm_compute; reflexivity | ].
  apply (proj1 (upload_file_substitutes_placeholder Demo.rt Demo.req_full Demo.world)
           RESULT_TEMPLATE Demo.page_full).
  vm_compute. reflexivity.
Defined.

(** C2: both routes name the same output artifact on every request: a
    record added to the store has [output_filename] "output_image.jpg"
    and a rendered page points its image at "/output_image.jpg",
    whatever the request, the image and the state. *)
Theorem output_filename_is_fixed (rt : Runtime) (req : Request) (w : World) :
  (every_page (fst (upload_file rt req w)) (fun ctx => image_url ctx = "/output_image.jpg") /\
   every_new_record w (snd (upload_file rt req w))
     (fun m => m_output_filename m = "output_image.jpg")) /\
  (every_page (fst (sample rt w)) (fun ctx => image_url ctx = "/output_image.jpg") /\
   every_new_record w (snd (sample rt w))
     (fun m => m_output_filename m = "output_image.jpg")).
Proof.
  unfold every_page, every_new_record. split.
  - split_guards rt req; run_steps; try solve [settle_outputs].
    split_engine rt; try solve [settle_outputs].
    split_store rt w; settle_outputs.
  - unfold sample. run_steps.
    split_engine rt; try solve [settle_outputs].
    split_store rt w; settle_outputs.
Qed.

(** Two different photos, one artifact name. *)
Lemma output_filename_is_fixed_witness :
  image_url Demo.page_full = "/output_image.jpg" /\
  image_url Demo.page_blank = "/output_image.jpg".
Proof.
  split.
  - apply (proj1 (proj1 (output_filename_is_fixed Demo.rt Demo.req_full Demo.world))
             RESULT_TEMPLATE Demo.page_full).
    vm_compute. reflexivity.
  - apply (proj1 (proj1 (output_filename_is_fixed Demo.rt Demo.req_blank Demo.world))
             RESULT_TEMPLATE Demo.page_blank).
    vm_compute. reflexivity.
Defined.

(** ** Failures of the engine *)

(** C3, as stated, fails: the photo shows no reference object, the engine
    returns [NoReferenceFound], and the caller is shown the result page. *)
Lemma upload_file_hides_engine_failure :
  ~ failure_is_reported Demo.rt Demo.req_blank Demo.world.
Proof.
  intros Hclaim.
  eapply (Hclaim Demo.blank_photo 24.26%float).
  - reflexivity.
  - reflexivity.
  - exists NoReferenceFound. vm_compute. reflexivity.
  - vm_compute. reflexivity.
Qed.

(** C3, amended: [upload_file] drops what [measure_object] returns. For
    a request past the guards whose reference size parses and whose
    upload is saved, whenever the engine returns, with a measurement or
    with a typed failure, the response is the result page, and it is the
    same page for any two engines and any two returned values. If the
    engine raises instead, its exception leaves the handler unhandled,
    no page is rendered and the store is left as it was. *)
Theorem upload_file_discards_engine_result (rt : Runtime) (req : Request) (w : World)
    (file : FileStorage) (r : float) :
  multidict_get "file" (request_files req) = Some file ->
  filename file <> "" ->
  form_reference_size rt req = Returned r ->
  save_error rt file (upload_path rt file w) = None ->
  (forall eng1 eng2 o1 o2,
     run_result (upload_run (with_engine eng1 rt) file r w) = Returned o1 ->
     run_result (upload_run (with_engine eng2 rt) file r w) = Returned o2 ->
     fst (upload_file (with_engine eng1 rt) req w) =
       fst (upload_file (with_engine eng2 rt) req w) /\
     exists ctx, fst (upload_file (with_engine eng1 rt) req w) =
       Returned (render_template_string RESULT_TEMPLATE ctx)) /\
  (forall e, run_result (upload_run rt file r w) = Raised e ->
     fst (upload_file rt req w) = Raised e /\
     store (snd (upload_file rt req w)) = store w).
Proof.
  intros Hfile Hname Href Hsave. split.
  - intros eng1 eng2 o1 o2 H1 H2.
    destruct (upload_file_page_fixed rt req w file r Hfile Hname Href Hsave) as [ctx Hpage].
    rewrite (Hpage eng1 o1 H1), (Hpage eng2 o2 H2). split; [reflexivity | eauto].
  - intros e He. enter_upload rt req Hfile Hname Href.
    unfold upload_path in Hsave. rewrite Hsave. simpl.
    unfold upload_run, upload_path in He. rewrite He. simpl. split; reflexivity.
Qed.

(** The same photo under an engine that fails, one that measures and one
    that raises. *)
Lemma upload_file_discards_engine_result_witness :
  fst (upload_file (with_engine Demo.measure Demo.rt) Demo.req_blank Demo.world) =
    fst (upload_file (with_engine Demo.measure_blind Demo.rt) Demo.req_blank Demo.world) /\
  fst (upload_file (with_engine Demo.measure_crashing Demo.rt) Demo.req_blank Demo.world) =
    Raised {| exc_class := OtherException "cv2.error"; exc_str := "bad image" |}.
Proof.
  split.
  - apply (proj1 (upload_file_discards_engine_result Demo.rt Demo.req_blank Demo.world
             Demo.blank_photo 24.26%float
             eq_refl ltac:(discriminate) eq_refl ltac:(vm_compute; reflexivity))
             Demo.measure Demo.measure_blind
             (Failure NoReferenceFound) (MeasurementResult 48.52%float 24.26%float)).
    + vm_compute. reflexivity.
    + vm_compute. reflexivity.
  - apply (proj2 (upload_file_discards_engine_result
             (with_engine Demo.measure_crashing Demo.rt) Demo.req_blank Demo.world
             Demo.blank_photo 24.26%float
             eq_refl ltac:(discriminate) eq_refl ltac:(vm_compute; reflexivity))).
    vm_compute. reflexivity.
Defined.

(** ** The record store *)

(** C4, as stated, fails: a photo sent with a reference size that is not
    a number ends in [ValueError] before anything is stored, and a photo
    sent to an installation whose store is read-only leaves the store as
    it was. *)
Lemma upload_file_can_store_nothing :
  filename Demo.photo <> "" /\
  multidict_get "file" (request_files Demo.req_bad_reference) = Some Demo.photo /\
  ~ appends_one_record Demo.rt Demo.req_bad_reference Demo.world /\
  multidict_get "file" (request_files Demo.req_bare) = Some Demo.photo /\
  ~ appends_one_record Demo.rt Demo.req_bare Demo.world_readonly.
Proof.
  repeat split; try discriminate.
  - intros (l & m & Hl & Hafter). vm_compute in Hl, Hafter.
    injection Hl as <-. discriminate Hafter.
  - intros (l & m & Hl & Hafter). vm_compute in Hl, Hafter.
    injection Hl as <-. discriminate Hafter.
Qed.

(** C4, amended: for an upload with a non-empty filename whose reference
    size is absent or parses, when the upload is saved, the engine
    returns, the store can be read and rewritten, and the weather data
    does not nest deeper than [json.dump] writes and [json.load] reads
    back, [upload_file] appends exactly one record. It holds the GPS fields as parsed by the
    GPS block, the parsed weather data, the category, the stripped object
    name and notes, the time of the request, and the id drawn for this
    measurement. No record already stored carries that id, provided
    [uuid4] does not repeat itself and the ids stored came from earlier
    draws. *)
Theorem upload_file_appends_record (rt : Runtime) (req : Request) (w : World)
    (file : FileStorage) (r : float) (o : EngineResult) (l : list Measurement) :
  multidict_get "file" (request_files req) = Some file ->
  filename file <> "" ->
  form_reference_size rt req = Returned r ->
  save_error rt file (upload_path rt file w) = None ->
  run_result (upload_run rt file r w) = Returned o ->
  store w = Returned l ->
  store_write_error w = None ->
  nesting_fault rt (parse_weather rt (form_get "weather" req)) = None ->
  exists m,
    store (snd (upload_file rt req w)) = Returned (l ++ [m])%list /\
    gps_to_float rt (form_get "latitude" req) (form_get "longitude" req)
      (form_get "accuracy" req) = Returned (m_latitude m, m_longitude m, m_accuracy m) /\
    m_weather_data m = parse_weather rt (form_get "weather" req) /\
    m_category m = form_get_default "category" "other" req /\
    m_object_name m = str_strip rt (form_get_default "object_name" "" req) /\
    m_notes m = str_strip rt (form_get_default "notes" "" req) /\
    m_timestamp m = clock w /\
    m_id m = uuid_str rt (S (uuid_count w)) /\
    ((forall i j, uuid_str rt i = uuid_str rt j -> i = j) ->
     ids_drawn rt (uuid_count w) l -> ~ In (m_id m) (map m_id l)).
Proof.
  intros Hfile Hname Href Hsave Hrun Hstore Hwrite Hnesting.
  enter_upload rt req Hfile Hname Href.
  unfold upload_path in Hsave. rewrite Hsave. simpl.
  unfold upload_run, upload_path in Hrun. rewrite Hrun. simpl.
  rewrite Hstore. simpl. rewrite Hwrite. simpl.
  rewrite ?Hstore. simpl. rewrite skipn_kept. simpl. rewrite Hnesting. simpl.
  eexists. split; [reflexivity |]. simpl.
  repeat split.
  intros Hinj Hdrawn. apply (ids_drawn_fresh rt (uuid_count w)); [exact Hinj | exact Hdrawn | lia].
Qed.

(** A complete upload to an installation that already holds the sample
    record. *)
Lemma upload_file_appends_record_witness :
  exists m,
    store (snd (upload_file Demo.rt Demo.req_full Demo.world_after_sample)) =
      Returned [Demo.stored_sample; m] /\
    m_object_name m = "Desk" /\
    m_id m = "uuid-2" /\
    ~ In (m_id m) (map m_id [Demo.stored_sample]).
Proof.
  destruct (upload_file_appends_record Demo.rt Demo.req_full Demo.world_after_sample
              Demo.photo 30%float (MeasurementResult 48.52%float 24.26%float)
              [Demo.stored_sample])
    as (m & Hstore & _ & _ & _ & Hname & _ & _ & Hid & Hfresh).
  - reflexivity.
  - discriminate.
  - reflexivity.
  - vm_compute. reflexivity.
  - vm_compute. reflexivity.
  - vm_compute. reflexivity.
  - reflexivity.
  - vm_compute. reflexivity.
  - exists m. split; [exact Hstore | ]. split; [exact Hname | ]. split; [exact Hid | ].
    apply Hfresh.
    + exact demo_uuid_inj.
    + constructor; [ | constructor ]. exists 0. split; [ vm_compute; lia | reflexivity ].
Defined.

(** C7: when the persistence step of [upload_file] is reached and the
    store cannot be read, or cannot be opened for writing, or its rewrite
    breaks off in the dump (on a fault of the file system, or on weather
    data nested deeper than [json.dump] goes), the exception is printed
    in one line and the handler carries on. The response is the result
    page, the very page rendered when the store is in order, so the
    caller cannot tell. The record is not saved: whatever can be read
    from the store afterwards was there before, and a rewrite that broke
    off in the dump leaves a store that can no longer be read. *)
Theorem persistence_failure_is_silent (rt : Runtime) (req : Request) (w : World)
    (file : FileStorage) (r : float) (o : EngineResult) (e : PyExc) :
  multidict_get "file" (request_files req) = Some file ->
  filename file <> "" ->
  form_reference_size rt req = Returned r ->
  save_error rt file (upload_path rt file w) = None ->
  run_result (upload_run rt file r w) = Returned o ->
  store w = Raised e \/
  (exists l, store w = Returned l /\
     (store_write_error w = Some (fails_at_open e) \/
      (exists unreadable, store_write_error w = Some (fails_in_dump e unreadable)) \/
      (exists unreadable,
         store_write_error w = None /\
         nesting_fault rt (parse_weather rt (form_get "weather" req)) =
           Some (breaks_dump e unreadable)))) ->
  (forall l, fst (upload_file rt req w) = fst (upload_file rt req (with_store l w))) /\
  (exists ctx, fst (upload_file rt req w) =
     Returned (render_template_string RESULT_TEMPLATE ctx)) /\
  console (snd (upload_file rt req w)) =
    (console w ++ run_stdout (upload_run rt file r w) ++
     ["Error saving measurement data: " +:+ exc_str e])%list /\
  (forall l', store (snd (upload_file rt req w)) = Returned l' -> store w = Returned l') /\
  (forall l unreadable,
     store w = Returned l ->
     store_write_error w = Some (fails_in_dump e unreadable) \/
     (store_write_error w = None /\
      nesting_fault rt (parse_weather rt (form_get "weather" req)) =
        Some (breaks_dump e unreadable)) ->
     store (snd (upload_file rt req w)) = Raised unreadable).
Proof.
  intros Hfile Hname Href Hsave Hrun Hfault.
  unfold upload_run, upload_path in Hrun, Hsave.
  split.
  { intros l0. clear Hfault. enter_upload rt req Hfile Hname Href.
    rewrite Hsave. simpl. rewrite Hrun. simpl.
    repeat rewrite skipn_kept. simpl.
    destruct (store w) as [l | e1]; simpl;
      [ destruct (store_write_error w) as [[e1 | e1 u] |]; simpl | ];
      repeat rewrite skipn_kept; simpl;
      destruct (nesting_fault rt _) as [[e2 | e2 u2] |]; simpl; reflexivity. }
  enter_upload rt req Hfile Hname Href.
  rewrite Hsave. simpl. rewrite Hrun. simpl.
  destruct Hfault as [Hstore | (l & Hstore & [Hwrite | [(u & Hwrite) | (u & Hwrite & Hdeep)]])];
    rewrite Hstore; simpl; rewrite ?Hwrite; simpl; rewrite ?Hstore; simpl;
    rewrite ?skipn_kept; simpl; rewrite ?Hdeep; simpl.
  - split; [ eauto | ]. split; [ rewrite <- app_assoc; reflexivity | ].
    split; [ intros l' Hl'; exact Hl' | ].
    intros l u [= ].
  - split; [ eauto | ]. split; [ rewrite <- app_assoc; reflexivity | ].
    split; [ intros l' Hl'; exact Hl' | ].
    intros l0 u _ [[= ] | [[= ] _]].
  - split; [ eauto | ]. split; [ rewrite <- app_assoc; reflexivity | ].
    split; [ intros l' [= ] | ].
    intros l0 u' _ [[= <-] | [[= ] _]]. reflexivity.
  - split; [ eauto | ]. split; [ rewrite <- app_assoc; reflexivity | ].
    split; [ intros l' [= ] | ].
    intros l0 u' _ [[= ] | [_ [= <-]]]. reflexivity.
Qed.

(** A complete upload to an installation whose store no longer parses,
    and to one whose disk fills up during the rewrite. *)
Lemma persistence_failure_is_silent_witness :
  fst (upload_file Demo.rt Demo.req_full Demo.world_corrupt) =
    fst (upload_file Demo.rt Demo.req_full Demo.world) /\
  console (snd (upload_file Demo.rt Demo.req_full Demo.world_corrupt)) =
    ["Error saving measurement data: Expecting value"] /\
  store (snd (upload_file Demo.rt Demo.req_full Demo.world_disk_full)) =
    Raised {| exc_class := ValueError; exc_str := "Expecting value" |}.
Proof.
  split; [ | split ].
  - apply (proj1 (persistence_failure_is_silent Demo.rt Demo.req_full Demo.world_corrupt
             Demo.photo 30%float (MeasurementResult 48.52%float 24.26%float)
             {| exc_class := ValueError; exc_str := "Expecting value" |}
             eq_refl ltac:(discriminate) eq_refl ltac:(vm_compute; reflexivity)
             ltac:(vm_compute; reflexivity) ltac:(left; reflexivity)) []).
  - rewrite (proj1 (proj2 (proj2 (persistence_failure_is_silent Demo.rt Demo.req_full
             Demo.world_corrupt
             Demo.photo 30%float (MeasurementResult 48.52%float 24.26%float)
             {| exc_class := ValueError; exc_str := "Expecting value" |}
             eq_refl ltac:(discriminate) eq_refl ltac:(vm_compute; reflexivity)
             ltac:(vm_compute; reflexivity) ltac:(left; reflexivity))))).
    vm_compute. reflexivity.
  - apply (proj2 (proj2 (proj2 (proj2 (persistence_failure_is_silent Demo.rt Demo.req_full
             Demo.world_disk_full
             Demo.photo 30%float (MeasurementResult 48.52%float 24.26%float)
             {| exc_class := OtherException "OSError";
                exc_str := "[Errno 28] No space left on device" |}
             eq_refl ltac:(discriminate) eq_refl ltac:(vm_compute; reflexivity)
             ltac:(vm_compute; reflexivity)
             ltac:(right; exists []; split; [ reflexivity | right; left; eexists; reflexivity ])))))
             [] _ eq_refl (or_introl eq_refl)).
Defined.

(** C9: the three GPS fields are parsed as one. In the record that
    [upload_file] stores, if [float] rejects any of latitude, longitude
    and accuracy then all three are [None]; otherwise each is the float
    of the string sent, or [None] where the field is absent or empty. *)
Theorem gps_fields_parsed_atomically (rt : Runtime) (req : Request) (w : World)
    (l : list Measurement) (m : Measurement) :
  store w = Returned l ->
  store (snd (upload_file rt req w)) = Returned (l ++ [m])%list ->
  (conversion_fails rt (form_get "latitude" req) = true \/
   conversion_fails rt (form_get "longitude" req) = true \/
   conversion_fails rt (form_get "accuracy" req) = true ->
   m_latitude m = None /\ m_longitude m = None /\ m_accuracy m = None) /\
  (conversion_fails rt (form_get "latitude" req) = false ->
   conversion_fails rt (form_get "longitude" req) = false ->
   conversion_fails rt (form_get "accuracy" req) = false ->
   m_latitude m = float_value rt (form_get "latitude" req) /\
   m_longitude m = float_value rt (form_get "longitude" req) /\
   m_accuracy m = float_value rt (form_get "accuracy" req)).
Proof.
  intros Hl.
  pose proof (gps_to_float_atomic rt (form_get "latitude" req) (form_get "longitude" req)
                (form_get "accuracy" req)) as Hatomic.
  split_guards rt req; run_steps; try (rewrite Hl; not_appended l m).
  split_engine rt; try (rewrite Hl; not_appended l m).
  rewrite Hl. simpl.
  destruct (store_write_error w) as [[e | e u] |]; simpl;
    try (rewrite ?Hl; not_appended l m).
  rewrite ?Hl. simpl. rewrite skipn_kept. simpl.
  destruct (nesting_fault rt _) as [[e | e u] |]; simpl;
    [ not_appended l m | not_appended l m | ].
  intros [= Hm]. apply app_inv_head in Hm. injection Hm as <-. simpl.
  rewrite Hatomic in Hgps. split.
  - intros Hfails.
    assert (Hany : conversion_fails rt (form_get "latitude" req)
                   || conversion_fails rt (form_get "longitude" req)
                   || conversion_fails rt (form_get "accuracy" req) = true).
    { destruct Hfails as [-> | [-> | ->]]; rewrite ?orb_true_r; reflexivity. }
    rewrite Hany in Hgps. injection Hgps as <- <- <-. repeat split.
  - intros Hlat Hlon Hacc. rewrite Hlat, Hlon, Hacc in Hgps. simpl in Hgps.
    injection Hgps as <- <- <-. repeat split.
Qed.

(** A longitude that is not a number wipes the latitude and the accuracy
    sent with it; three numbers are stored as sent. *)
Lemma gps_fields_parsed_atomically_witness :
  (m_latitude Demo.stored_bad_gps = None /\
   m_longitude Demo.stored_bad_gps = None /\
   m_accuracy Demo.stored_bad_gps = None) /\
  (m_latitude Demo.stored_full = Some 48.8584%float /\
   m_longitude Demo.stored_full = Some 2.2945%float /\
   m_accuracy Demo.stored_full = Some 12.5%float).
Proof.
  split.
  - apply (proj1 (gps_fields_parsed_atomically Demo.rt Demo.req_bad_gps Demo.world
                    [] Demo.stored_bad_gps eq_refl ltac:(vm_compute; reflexivity))).
    right. left. reflexivity.
  - apply (proj2 (gps_fields_parsed_atomically Demo.rt Demo.req_full Demo.world
                    [] Demo.stored_full eq_refl ltac:(vm_compute; reflexivity)));
      reflexivity.
Defined.

(** ** Calls to the engine *)

(** C5: the reference diameter defaults to 24.26 mm. Every call an
    upload without [reference_size] in its form makes to
    [measure_object] carries 24.26, and it makes that call once it is
    past the guards and its upload is saved; the sample route calls the
    engine without a reference size, leaving the engine's default in
    force, stores [reference_size_mm] 24.26 and shows 24.26. *)
Theorem reference_size_defaults (rt : Runtime) (req : Request) (w : World) :
  (form_get "reference_size" req = None ->
   exists cs,
     calls (snd (upload_file rt req w)) = (calls w ++ cs)%list /\
     Forall (fun c => snd c = Some 24.26%float) cs /\
     (forall file,
        multidict_get "file" (request_files req) = Some file ->
        filename file <> "" ->
        save_error rt file (upload_path rt file w) = None ->
        cs = [(upload_path rt file w, Some 24.26%float)])) /\
  calls (snd (sample rt w)) = (calls w ++ [(fst (sample_image rt), None)])%list /\
  every_new_record w (snd (sample rt w)) (fun m => m_reference_size_mm m = 24.26%float) /\
  every_page (fst (sample rt w)) (fun ctx => reference_size ctx = 24.26%float).
Proof.
  split; [ | split ].
  - intros Hnone.
    assert (Href : form_reference_size rt req = Returned 24.26%float).
    { unfold form_reference_size. rewrite Hnone. reflexivity. }
    split_guards rt req; run_steps;
      try (exists []; split; [ symmetry; apply app_nil_r | ];
           split; [ constructor | ]; intros file' Hfile' Hname' Hsave'; try discriminate;
           injection Hfile' as <-; rewrite (filename_eqb_false _ Hname') in *;
           discriminate).
    injection Href as ->.
    destruct (save_error rt _ _) as [[e | e written] |] eqn:Hsave; simpl.
    + exists []. split; [ symmetry; apply app_nil_r | ]. split; [ constructor | ].
      intros file' Hfile' _ Hsave'. injection Hfile' as <-.
      unfold upload_path in Hsave'. rewrite Hsave' in Hsave. discriminate Hsave.
    + exists []. split; [ symmetry; apply app_nil_r | ]. split; [ constructor | ].
      intros file' Hfile' _ Hsave'. injection Hfile' as <-.
      unfold upload_path in Hsave'. rewrite Hsave' in Hsave. discriminate Hsave.
    + eexists [_]. split; [ | split ].
      * destruct (run_result _) as [o | e]; simpl; [ | reflexivity ].
        split_store rt w; reflexivity.
      * constructor; [ reflexivity | constructor ].
      * intros file' Hfile' _ _. injection Hfile' as <-. reflexivity.
  - unfold sample. run_steps.
    destruct (run_result _) as [o | e]; simpl; [ | reflexivity ].
    split_store rt w; reflexivity.
  - unfold every_new_record, every_page, sample. run_steps.
    destruct (run_result _) as [o | e]; simpl; [ | settle_outputs ].
    split_store rt w; settle_outputs.
Qed.

(** A photo sent with an empty form. *)
Lemma reference_size_defaults_witness :
  calls (snd (upload_file Demo.rt Demo.req_bare Demo.world)) =
    [("uploads/uuid-0.jpg", Some 24.26%float)] /\
  calls (snd (sample Demo.rt Demo.world)) = [("sample_image.jpg", None)].
Proof.
  destruct (reference_size_defaults Demo.rt Demo.req_bare Demo.world)
    as (Hupload & Hsample & _).
  split.
  - destruct (Hupload eq_refl) as (cs & Hcalls & _ & Hone).
    rewrite Hcalls, (Hone Demo.photo eq_refl ltac:(discriminate)
                       ltac:(vm_compute; reflexivity)).
    vm_compute. reflexivity.
  - rewrite Hsample. vm_compute. reflexivity.
Defined.




(** ** The guards of [upload_file] *)

(** C10: an upload request with no ['file'] part, or whose file part has an
    empty filename, is answered with a redirect to ['/'] and leaves the
    world as it was: no call to [measure_object], no file saved, the
    record store untouched. *)
Theorem upload_file_without_file_redirects (rt : Runtime) (req : Request) (w : World) :
  multidict_get "file" (request_files req) = None \/
  (exists file, multidict_get "file" (request_files req) = Some file /\ filename file = "") ->
  upload_file rt req w = (Returned (redirect "/"), w) /\
  calls (snd (upload_file rt req w)) = calls w /\
  files (snd (upload_file rt req w)) = files w /\
  store (snd (upload_file rt req w)) = store w.
Proof.
  intros Hguard.
  assert (Hrun : upload_file rt req w = (Returned (redirect "/"), w)).
  { unfold upload_file.
    destruct Hguard as [Hnone | (file & Hsome & Hname)].
    - rewrite Hnone. reflexivity.
    - rewrite Hsome, Hname. reflexivity. }
  rewrite Hrun. repeat split; reflexivity.
Qed.

Lemma upload_file_without_file_redirects_witness :
  upload_file Demo.rt Demo.req_no_file Demo.world = (Returned (redirect "/"), Demo.world) /\
  upload_file Demo.rt Demo.req_empty_name Demo.world = (Returned (redirect "/"), Demo.world).
Proof.
  split.
  - apply (upload_file_without_file_redirects Demo.rt Demo.req_no_file Demo.world).
    left. reflexivity.
  - apply (upload_file_without_file_redirects Demo.rt Demo.req_empty_name Demo.world).
    right. exists {| filename := ""; content := "" |}. split; reflexivity.
Defined.

(** ** The readers, symbolically *)

(** Unfolds the steps of a reader. *)
Ltac run_reader :=
  cbv beta iota delta [index list_measurements show_map view_measurement export_options
    export_csv export_json share_measurement load_measurements_or_empty];
  run_steps.

Lemma find_id_none (id : string) (l : list Measurement) :
  ~ In id (map m_id l) -> List.find (fun m => m_id m =? id) l = None.
Proof.
  induction l as [| m l IH]; simpl; [ reflexivity | ].
  intros Hnot. destruct (m_id m =? id) eqn:E.
  - apply String.eqb_eq in E. destruct Hnot. left. exact E.
  - apply IH. intros Hin. apply Hnot. right. exact Hin.
Qed.

Lemma find_id_first (id : string) (l : list Measurement) :
  In id (map m_id l) ->
  exists before m after,
    l = (before ++ m :: after)%list /\ ~ In id (map m_id before) /\ m_id m = id /\
    List.find (fun x => m_id x =? id) l = Some m.
Proof.
  induction l as [| x l IH]; simpl; [ intros [] | ].
  intros Hin. destruct (m_id x =? id) eqn:E.
  - apply String.eqb_eq in E. exists [], x, l. repeat split; auto.
  - destruct Hin as [Hx | Hin]; [ apply String.eqb_neq in E; contradiction | ].
    destruct (IH Hin) as (before & m & after & -> & Hnot & Hid & Hfind).
    exists (x :: before), m, after. repeat split; auto.
    simpl. intros [Hx | Hb]; [ apply String.eqb_neq in E; contradiction | auto ].
Qed.

Lemma find_id_snoc (id : string) (l : list Measurement) (m : Measurement) :
  ~ In id (map m_id l) -> m_id m = id ->
  List.find (fun x => m_id x =? id) (l ++ [m]) = Some m.
Proof.
  intros Hnot Hid. induction l as [| x l IH]; simpl.
  - rewrite Hid, String.eqb_refl. reflexivity.
  - destruct (m_id x =? id) eqn:E.
    + apply String.eqb_eq in E. destruct Hnot. left. exact E.
    + apply IH. intros Hin. apply Hnot. right. exact Hin.
Qed.

(** What [view_measurement] does once the record is found. *)
Lemma view_measurement_found (id : string) (w : World) (l : list Measurement)
    (m : Measurement) :
  store w = Returned l ->
  List.find (fun x => m_id x =? id) l = Some m ->
  view_measurement id w =
    (Returned (render_template_string RESULT_TEMPLATE
       {| image_url := "/" +:+ m_output_filename m;
          width := m_width_mm m;
          height := m_height_mm m;
          reference_size := m_reference_size_mm m;
          latitude := m_latitude m;
          longitude := m_longitude m;
          accuracy := m_accuracy m;
          timestamp := m_timestamp m;
          weather_data := m_weather_data m;
          object_name := m_object_name m;
          notes := m_notes m;
          category_color := option_map cat_color (m_category_data m);
          category_name := match m_category_data m with
                           | Some c => cat_name c
                           | None => "Other"
                           end;
          measurement_id := id |}), w).
Proof.
  intros Hstore Hfind. run_reader. rewrite Hstore. simpl. rewrite Hfind. reflexivity.
Qed.

Lemma view_measurement_missing (id : string) (w : World) (l : list Measurement) :
  store w = Returned l ->
  List.find (fun x => m_id x =? id) l = None ->
  view_measurement id w = (Returned (redirect "/measurements"), w).
Proof.
  intros Hstore Hfind. run_reader. rewrite Hstore. simpl. rewrite Hfind. reflexivity.
Qed.

Lemma view_measurement_unreadable (id : string) (w : World) (e : PyExc) :
  store w = Raised e ->
  view_measurement id w =
    (Returned (redirect "/measurements"),
     set_console (console w ++ ["Error loading measurement: " +:+ exc_str e]) w).
Proof. intros He. run_reader. rewrite He. reflexivity. Qed.

(** X1: [view_measurement] on a store of complete records. If the store
    cannot be read it prints one line and redirects to the list; if no
    record carries the id it redirects and leaves the world alone;
    otherwise it renders the result page of the first record stored
    under the id, each of its fourteen arguments taken from that record
    or from the id, and leaves the world alone. *)
Theorem view_measurement_shows_first_match (id : string) (w : World) :
  (forall e, store w = Raised e ->
     view_measurement id w =
       (Returned (redirect "/measurements"),
        set_console (console w ++ ["Error loading measurement: " +:+ exc_str e]) w)) /\
  (forall l, store w = Returned l -> ~ In id (map m_id l) ->
     view_measurement id w = (Returned (redirect "/measurements"), w)) /\
  (forall l, store w = Returned l -> In id (map m_id l) ->
     exists before m after,
       l = (before ++ m :: after)%list /\ ~ In id (map m_id before) /\ m_id m = id /\
       view_measurement id w =
         (Returned (render_template_string RESULT_TEMPLATE
            {| image_url := "/" +:+ m_output_filename m;
               width := m_width_mm m;
               height := m_height_mm m;
               reference_size := m_reference_size_mm m;
               latitude := m_latitude m;
               longitude := m_longitude m;
               accuracy := m_accuracy m;
               timestamp := m_timestamp m;
               weather_data := m_weather_data m;
               object_name := m_object_name m;
               notes := m_notes m;
               category_color := option_map cat_color (m_category_data m);
               category_name := match m_category_data m with
                                | Some c => cat_name c
                                | None => "Other"
                                end;
               measurement_id := id |}), w)).
Proof.
  split; [ | split ].
  - intros e He. apply view_measurement_unreadable. exact He.
  - intros l Hl Hnot. apply (view_measurement_missing id w l Hl).
    apply find_id_none. exact Hnot.
  - intros l Hl Hin.
    destruct (find_id_first id l Hin) as (before & m & after & Heq & Hnot & Hid & Hfind).
    exists before, m, after.
    split; [ exact Heq | ]. split; [ exact Hnot | ]. split; [ exact Hid | ].
    apply (view_measurement_found id w l m Hl Hfind).
Qed.

Lemma view_measurement_shows_first_match_witness :
  fst (view_measurement "uuid-0" Demo.world_corrupt) = Returned (redirect "/measurements") /\
  view_measurement "nobody" Demo.world_after_sample =
    (Returned (redirect "/measurements"), Demo.world_after_sample) /\
  view_measurement "uuid-0" Demo.world_after_sample =
    (Returned (render_template_string RESULT_TEMPLATE DemoReaders.page_sample),
     Demo.world_after_sample).
Proof.
  split; [ | split ].
  - rewrite (proj1 (view_measurement_shows_first_match "uuid-0" Demo.world_corrupt)
               {| exc_class := ValueError; exc_str := "Expecting value" |} eq_refl).
    reflexivity.
  - apply (proj1 (proj2 (view_measurement_shows_first_match "nobody"
                           Demo.world_after_sample)) [Demo.stored_sample]).
    + vm_compute. reflexivity.
    + simpl. intros [Habs | []]. discriminate Habs.
  - destruct (proj2 (proj2 (view_measurement_shows_first_match "uuid-0"
                              Demo.world_after_sample)) [Demo.stored_sample])
      as (before & m & after & Heq & _ & _ & Hview).
    + vm_compute. reflexivity.
    + left. reflexivity.
    + rewrite Hview. destruct before as [| x before].
      * injection Heq as <- _. reflexivity.
      * destruct before; discriminate Heq.
Defined.

(** X2: what an upload shows can be looked up again. When the store can
    be read and rewritten, the weather data does not nest deeper than
    [json.dump] writes and [json.load] reads back, and [uuid4] does not
    repeat itself,
    [view_measurement] on the id shown by the page of an upload renders
    that same page, in the world the upload left, and leaves it alone. *)
Theorem view_after_upload_shows_same_page (rt : Runtime) (req : Request) (w : World)
    (l : list Measurement) (ctx : ResultContext) :
  store w = Returned l ->
  store_write_error w = None ->
  nesting_fault rt (parse_weather rt (form_get "weather" req)) = None ->
  (forall i j, uuid_str rt i = uuid_str rt j -> i = j) ->
  ids_drawn rt (uuid_count w) l ->
  fst (upload_file rt req w) = Returned (render_template_string RESULT_TEMPLATE ctx) ->
  view_measurement (measurement_id ctx) (snd (upload_file rt req w)) =
    (Returned (render_template_string RESULT_TEMPLATE ctx), snd (upload_file rt req w)).
Proof.
  intros Hl Hwrite Hnesting Hinj Hdrawn.
  pose proof (ids_drawn_fresh rt (uuid_count w) (S (uuid_count w)) l Hinj Hdrawn
                ltac:(lia)) as Hfresh.
  split_guards rt req; run_steps; try discriminate.
  split_engine rt; try discriminate.
  rewrite Hl. simpl. rewrite Hwrite. simpl. rewrite ?Hl. simpl.
  rewrite skipn_kept. simpl. rewrite Hnesting. simpl.
  intros Hpage. inversion Hpage; subst ctx; clear Hpage. simpl.
  etransitivity;
    [ eapply view_measurement_found;
      [ simpl; reflexivity | apply find_id_snoc; [ exact Hfresh | reflexivity ] ]
    | reflexivity ].
Qed.

Lemma view_after_upload_shows_same_page_witness :
  view_measurement "uuid-1" (snd (upload_file Demo.rt Demo.req_full Demo.world)) =
    (Returned (render_template_string RESULT_TEMPLATE Demo.page_full),
     snd (upload_file Demo.rt Demo.req_full Demo.world)).
Proof.
  apply (view_after_upload_shows_same_page Demo.rt Demo.req_full Demo.world []
           Demo.page_full).
  - reflexivity.
  - reflexivity.
  - vm_compute. reflexivity.
  - exact demo_uuid_inj.
  - constructor.
  - vm_compute. reflexivity.
Defined.

(** X3: the same for the sample route: the page it shows is the page
    [view_measurement] renders for the id on it. *)
Theorem view_after_sample_shows_same_page (rt : Runtime) (w : World)
    (l : list Measurement) (ctx : ResultContext) :
  store w = Returned l ->
  store_write_error w = None ->
  (forall i j, uuid_str rt i = uuid_str rt j -> i = j) ->
  ids_drawn rt (uuid_count w) l ->
  fst (sample rt w) = Returned (render_template_string RESULT_TEMPLATE ctx) ->
  view_measurement (measurement_id ctx) (snd (sample rt w)) =
    (Returned (render_template_string RESULT_TEMPLATE ctx), snd (sample rt w)).
Proof.
  intros Hl Hwrite Hinj Hdrawn.
  pose proof (ids_drawn_fresh rt (uuid_count w) (uuid_count w) l Hinj Hdrawn
                ltac:(lia)) as Hfresh.
  unfold sample. run_steps.
  split_engine rt; try discriminate.
  rewrite Hl. simpl. rewrite Hwrite. simpl. rewrite ?Hl. simpl.
  rewrite skipn_kept. simpl. rewrite ?nesting_fault_sample. simpl.
  intros Hpage. inversion Hpage; subst ctx; clear Hpage. simpl.
  etransitivity;
    [ eapply view_measurement_found;
      [ simpl; reflexivity | apply find_id_snoc; [ exact Hfresh | reflexivity ] ]
    | reflexivity ].
Qed.

Lemma view_after_sample_shows_same_page_witness :
  view_measurement "uuid-0" (snd (sample Demo.rt Demo.world)) =
    (Returned (render_template_string RESULT_TEMPLATE DemoReaders.page_sample),
     snd (sample Demo.rt Demo.world)).
Proof.
  apply (view_after_sample_shows_same_page Demo.rt Demo.world [] DemoReaders.page_sample).
  - reflexivity.
  - reflexivity.
  - exact demo_uuid_inj.
  - constructor.
  - vm_compute. reflexivity.
Defined.

(** X4: an upload past the guards, saved and measured, shows a result
    page even when its record does not end up in a readable store, and
    then the id on the page leads nowhere: [view_measurement] on it
    redirects to the list. This is so when the store cannot be read, when
    its rewrite breaks off in the dump, when the weather data nests
    deeper than [json.dump] writes or [json.load] reads back, and,
    provided [uuid4] does not repeat itself and the ids stored came from
    earlier draws, when the store cannot be opened for writing. *)
Theorem unsaved_measurement_cannot_be_viewed (rt : Runtime) (req : Request) (w : World)
    (file : FileStorage) (r : float) (o : EngineResult) :
  multidict_get "file" (request_files req) = Some file ->
  filename file <> "" ->
  form_reference_size rt req = Returned r ->
  save_error rt file (upload_path rt file w) = None ->
  run_result (upload_run rt file r w) = Returned o ->
  (exists e, store w = Raised e) \/
  (exists l e unreadable,
     store w = Returned l /\ store_write_error w = Some (fails_in_dump e unreadable)) \/
  (exists l fault,
     store w = Returned l /\ store_write_error w = None /\
     nesting_fault rt (parse_weather rt (form_get "weather" req)) = Some fault) \/
  (exists l e,
     store w = Returned l /\ store_write_error w = Some (fails_at_open e) /\
     (forall i j, uuid_str rt i = uuid_str rt j -> i = j) /\
     ids_drawn rt (uuid_count w) l) ->
  exists ctx,
    fst (upload_file rt req w) = Returned (render_template_string RESULT_TEMPLATE ctx) /\
    fst (view_measurement (measurement_id ctx) (snd (upload_file rt req w))) =
      Returned (redirect "/measurements").
Proof.
  intros Hfile Hname Href Hsave Hrun Hfault.
  unfold upload_run, upload_path in Hrun, Hsave.
  remember view_measurement as view eqn:Hview.
  enter_upload rt req Hfile Hname Href.
  rewrite Hsave. simpl. rewrite Hrun. simpl.
  destruct Hfault as [(e & He) | [(l & e & u & Hl & Hwrite) | [(l & fault & Hl & Hwrite & Hnesting)
                     | (l & e & Hl & Hwrite & Hinj & Hdrawn)]]].
  - rewrite He. simpl. eexists. split; [ reflexivity | ]. subst view.
    erewrite view_measurement_unreadable; [ reflexivity | simpl; exact He ].
  - rewrite Hl. simpl. rewrite Hwrite. simpl. eexists. split; [ reflexivity | ]. subst view.
    erewrite view_measurement_unreadable; [ reflexivity | simpl; reflexivity ].
  - rewrite Hl. simpl. rewrite Hwrite. simpl. rewrite ?Hl. simpl.
    rewrite skipn_kept. simpl. rewrite Hnesting.
    destruct fault as [e | e u]; simpl;
      (eexists; split; [ reflexivity | ]; subst view;
       erewrite view_measurement_unreadable; [ reflexivity | simpl; reflexivity ]).
  - rewrite Hl. simpl. rewrite Hwrite. simpl. eexists. split; [ reflexivity | ]. subst view.
    erewrite view_measurement_missing; [ reflexivity | simpl; exact Hl | ].
    apply find_id_none.
    apply (ids_drawn_fresh rt (uuid_count w)); [ exact Hinj | exact Hdrawn | lia ].
Qed.

Lemma unsaved_measurement_cannot_be_viewed_witness :
  fst (upload_file Demo.rt Demo.req_full Demo.world_readonly) =
    Returned (render_template_string RESULT_TEMPLATE Demo.page_full) /\
  fst (view_measurement "uuid-1" (snd (upload_file Demo.rt Demo.req_full Demo.world_readonly))) =
    Returned (redirect "/measurements") /\
  exists ctx,
    fst (upload_file Demo.rt Demo.req_deep_weather Demo.world) =
      Returned (render_template_string RESULT_TEMPLATE ctx) /\
    fst (view_measurement (measurement_id ctx)
           (snd (upload_file Demo.rt Demo.req_deep_weather Demo.world))) =
      Returned (redirect "/measurements").
Proof.
  split; [ vm_compute; reflexivity | ]. split.
  - destruct (unsaved_measurement_cannot_be_viewed Demo.rt Demo.req_full
                Demo.world_readonly Demo.photo 30%float
                (MeasurementResult 48.52%float 24.26%float))
      as (ctx & Hpage & Hview).
    + reflexivity.
    + discriminate.
    + reflexivity.
    + vm_compute. reflexivity.
    + vm_compute. reflexivity.
    + right. right. right. exists []. eexists.
      split; [ reflexivity | ]. split; [ reflexivity | ].
      split; [ exact demo_uuid_inj | constructor ].
    + assert (Hctx : ctx = Demo.page_full).
      { assert (Hfull : fst (upload_file Demo.rt Demo.req_full Demo.world_readonly) =
                  Returned (render_template_string RESULT_TEMPLATE Demo.page_full))
          by (vm_compute; reflexivity).
        rewrite Hfull in Hpage. injection Hpage as <-. reflexivity. }
      subst ctx. exact Hview.
  - apply (unsaved_measurement_cannot_be_viewed Demo.rt Demo.req_deep_weather
             Demo.world Demo.photo 24.26%float
             (MeasurementResult 48.52%float 24.26%float)).
    + reflexivity.
    + discriminate.
    + reflexivity.
    + vm_compute. reflexivity.
    + vm_compute. reflexivity.
    + right. right. left. exists []. eexists.
      split; [ reflexivity | ]. split; [ reflexivity | ]. vm_compute. reflexivity.
Defined.

(** X14: an upload past the guards whose file cannot be saved ends
    there. The exception of [file.save] leaves the handler unhandled;
    [measure_object] is not called, the store and the console are left
    as they were, and of the files only the upload's own path can have
    changed, to hold what was copied before the save broke off. *)
Theorem unsaved_upload_stops_before_the_engine (rt : Runtime) (req : Request) (w : World)
    (file : FileStorage) (r : float) (fault : SaveFault) :
  multidict_get "file" (request_files req) = Some file ->
  filename file <> "" ->
  form_reference_size rt req = Returned r ->
  save_error rt file (upload_path rt file w) = Some fault ->
  fst (upload_file rt req w) = Raised (save_fault_exc fault) /\
  calls (snd (upload_file rt req w)) = calls w /\
  files (snd (upload_file rt req w)) =
    match fault with
    | save_refused _ => files w
    | save_cut_short _ written => <[upload_path rt file w := written]> (files w)
    end /\
  store (snd (upload_file rt req w)) = store w /\
  console (snd (upload_file rt req w)) = console w.
Proof.
  intros Hfile Hname Href Hsave.
  unfold upload_path in *.
  enter_upload rt req Hfile Hname Href.
  rewrite Hsave. destruct fault as [e | e written]; simpl; repeat split.
Qed.

Lemma unsaved_upload_stops_before_the_engine_witness :
  fst (upload_file Demo.rt Demo.req_long_name Demo.world) =
    Raised {| exc_class := OtherException "OSError";
              exc_str := "[Errno 36] File name too long" |} /\
  calls (snd (upload_file Demo.rt Demo.req_long_name Demo.world)) = [] /\
  files (snd (upload_file Demo.rt Demo.req_long_name Demo.world)) = ∅.
Proof.
  destruct (unsaved_upload_stops_before_the_engine Demo.rt Demo.req_long_name Demo.world
              Demo.long_photo 24.26%float
              (save_refused {| exc_class := OtherException "OSError";
                               exc_str := "[Errno 36] File name too long" |}))
    as (Hraise & Hcalls & Hfiles & _).
  - reflexivity.
  - discriminate.
  - reflexivity.
  - vm_compute. reflexivity.
  - split; [ exact Hraise | ]. split; [ exact Hcalls | exact Hfiles ].
Defined.

(** ** [view_measurement] on records as dicts *)

Lemma first_with_id_json (measurement_id : string) (l : list Measurement) :
  Json.first_with_id measurement_id (map measurement_json l) =
    Returned (option_map measurement_json
                (List.find (fun m => m_id m =? measurement_id) l)).
Proof.
  induction l as [| m l IH]; simpl; [ reflexivity | ].
  destruct (m_id m =? measurement_id); [ reflexivity | exact IH ].
Qed.

Lemma first_with_id_first (measurement_id : string) (before after : list pyval)
    (m : pyval) :
  Json.first_with_id measurement_id before = Returned None ->
  py_getitem m "id" = Returned (PyStr measurement_id) ->
  Json.first_with_id measurement_id (before ++ m :: after) = Returned (Some m).
Proof.
  intros Hbefore Hid. induction before as [| x before IH]; simpl in *.
  - rewrite Hid. simpl. rewrite String.eqb_refl. reflexivity.
  - destruct (py_getitem x "id") as [i | e]; simpl in *; [ | discriminate Hbefore ].
    destruct (py_eq_str i measurement_id); [ discriminate Hbefore | ].
    apply IH. exact Hbefore.
Qed.

(** X15: on the records the application writes, [view_measurement] as
    given on complete records and [view_measurement] as given on the
    dicts that [json.load] returns do the same: the same response,
    argument for argument, or the same redirect, and the same printed
    lines. *)
Theorem view_measurement_agrees_on_written_records (py_str : pyval -> string)
    (measurement_id : string) (w : World) :
  fst (Json.view_measurement py_str measurement_id (loaded_store w)) =
    response_json (fst (view_measurement measurement_id w)) /\
  console (snd (view_measurement measurement_id w)) =
    (console w ++ snd (Json.view_measurement py_str measurement_id (loaded_store w)))%list.
Proof.
  unfold Json.view_measurement, Json.find_measurement, loaded_store, view_measurement.
  run_reader.
  destruct (store w) as [l | e]; simpl.
  - rewrite first_with_id_json.
    destruct (List.find _ l) as [m |]; simpl.
    + unfold Json.show_measurement. simpl.
      destruct (m_category_data m) as [c |]; simpl;
        (split; [ reflexivity | rewrite app_nil_r; reflexivity ]).
    + split; [ reflexivity | rewrite app_nil_r; reflexivity ].
  - split; reflexivity.
Qed.

(** X16: a record that lacks one of the keys [view_measurement] indexes
    after its [try] block makes the handler raise. When it is the first
    record under the id asked for, and its category data is missing,
    empty or carries a colour and a name, the handler ends in
    [KeyError] on the first of those keys that is missing; the exception
    is not caught and nothing is printed. *)
Theorem view_measurement_raises_on_incomplete_record (py_str : pyval -> string)
    (measurement_id : string) (before after : list pyval)
    (d : list (string * pyval)) (key : string) :
  Json.first_with_id measurement_id before = Returned None ->
  pairs_find "id" d = Some (PyStr measurement_id) ->
  (py_truthy (pairs_get "category_data" PyNone d) = true ->
   exists color name,
     py_getitem (pairs_get "category_data" PyNone d) "color" = Returned color /\
     py_getitem (pairs_get "category_data" PyNone d) "name" = Returned name) ->
  List.find (fun k => match pairs_find k d with Some _ => false | None => true end)
    Json.indexed_keys = Some key ->
  Json.view_measurement py_str measurement_id
    (Returned (PyList (before ++ PyDict d :: after))) =
    (Raised (KeyError key), []).
Proof.
  intros Hbefore Hid Hcategory Hmissing.
  unfold Json.view_measurement, Json.find_measurement. simpl.
  rewrite (first_with_id_first measurement_id before after (PyDict d) Hbefore)
    by (simpl; rewrite Hid; reflexivity).
  simpl.
  assert (Hd : match d with [] => false | _ :: _ => true end = true).
  { destruct d; [ discriminate Hid | reflexivity ]. }
  rewrite Hd. unfold Json.show_measurement. simpl.
  destruct (py_truthy (pairs_get "category_data" PyNone d)) eqn:Htruthy.
  - destruct (Hcategory eq_refl) as (color & name & -> & ->). simpl.
    unfold Json.indexed_keys in Hmissing. simpl in Hmissing.
    repeat match type of Hmissing with
    | context [pairs_find ?k d] =>
        destruct (pairs_find k d); simpl in *;
        [ | injection Hmissing as <-; reflexivity ]
    end.
    discriminate Hmissing.
  - simpl.
    unfold Json.indexed_keys in Hmissing. simpl in Hmissing.
    repeat match type of Hmissing with
    | context [pairs_find ?k d] =>
        destruct (pairs_find k d); simpl in *;
        [ | injection Hmissing as <-; reflexivity ]
    end.
    discriminate Hmissing.
Qed.

Lemma view_measurement_raises_on_incomplete_record_witness :
  Json.view_measurement DemoReaders.str "by-hand"
    (Returned (PyList [measurement_json Demo.stored_sample; DemoReaders.handmade_record])) =
    (Raised {| exc_class := OtherException "KeyError"; exc_str := "'width_mm'" |}, []).
Proof.
  apply (view_measurement_raises_on_incomplete_record DemoReaders.str "by-hand"
           [measurement_json Demo.stored_sample] []
           [ ("id", PyStr "by-hand"); ("object_name", PyStr "Shelf");
             ("output_filename", PyStr "shelf.jpg") ] "width_mm").
  - reflexivity.
  - reflexivity.
  - simpl. discriminate.
  - reflexivity.
Defined.

(** ** The CSV export *)

Lemma csv_data_row_ok (m : Measurement) :
  weather_breaks_export m = false ->
  exists row, csv_data_row m = Returned row /\
    length row = length csv_header /\ hd PyNone row = PyStr (m_id m).
Proof.
  unfold weather_breaks_export, csv_data_row, weather_columns, py_get.
  destruct (py_truthy (m_weather_data m)); simpl.
  - destruct (m_weather_data m); simpl; try discriminate.
    intros _. eexists. repeat split.
  - intros _. eexists. repeat split.
Qed.

Lemma csv_data_row_breaks (m : Measurement) :
  weather_breaks_export m = true ->
  exists e, csv_data_row m = Raised e /\ exc_class e = OtherException "AttributeError".
Proof.
  unfold weather_breaks_export, csv_data_row, weather_columns, py_get.
  destruct (py_truthy (m_weather_data m)); simpl; [ | discriminate ].
  destruct (m_weather_data m); simpl; try discriminate; intros _; eexists; split; reflexivity.
Qed.


Lemma write_data_rows_breaks (l : list Measurement) (output : list (list pyval)) :
  existsb weather_breaks_export l = true ->
  exists e, write_data_rows l output = Raised e /\
    exc_class e = OtherException "AttributeError".
Proof.
  revert output. induction l as [| m l IH]; intros output; simpl; [ discriminate | ].
  destruct (weather_breaks_export m) eqn:Hm; simpl.
  - intros _. destruct (csv_data_row_breaks m Hm) as (e & He & Hclass).
    rewrite He. simpl. exists e. split; [ reflexivity | exact Hclass ].
  - intros Hl. destruct (csv_data_row_ok m Hm) as (row & Hrow & _).
    rewrite Hrow. simpl. apply IH. exact Hl.
Qed.

Lemma export_csv_breaks (ex : Exporters) (w : World) (l : list Measurement) :
  store w = Returned l ->
  existsb weather_breaks_export l = true ->
  exists e, export_csv ex w = (Raised e, w) /\
    exc_class e = OtherException "AttributeError".
Proof.
  intros Hl Hweather.
  destruct (write_data_rows_breaks l [csv_header] Hweather) as (e & He & Hclass).
  exists e. split; [ | exact Hclass ].
  run_reader. rewrite Hl. simpl. rewrite He. reflexivity.
Qed.



(** The record that [upload_file] has appended, read off the request. *)
Lemma upload_file_stored_record (rt : Runtime) (req : Request) (w : World)
    (l : list Measurement) (m : Measurement) :
  store w = Returned l ->
  store (snd (upload_file rt req w)) = Returned (l ++ [m])%list ->
  m_weather_data m = parse_weather rt (form_get "weather" req) /\
  m_category m = form_get_default "category" "other" req /\
  m_category_data m = find_category rt (form_get_default "category" "other" req) /\
  m_id m = uuid_str rt (S (uuid_count w)) /\
  written_by_app m.
Proof.
  intros Hl.
  split_guards rt req; run_steps; try (rewrite Hl; not_appended l m).
  split_engine rt; try (rewrite Hl; not_appended l m).
  rewrite Hl. simpl.
  destruct (store_write_error w) as [[e | e u] |]; simpl;
    try (rewrite ?Hl; not_appended l m).
  rewrite ?Hl. simpl. rewrite skipn_kept. simpl.
  destruct (nesting_fault rt _) as [[e | e u] |]; simpl;
    [ not_appended l m | not_appended l m | ].
  intros [= Hm]. apply app_inv_head in Hm. injection Hm as <-. simpl.
  unfold written_by_app. simpl. repeat split.
Qed.

(** X6: [upload_file] stores whatever JSON the weather field parses to,
    and [export_csv] expects a dict there. Once an upload has added a
    record whose weather data is truthy and not a dict (a list, a
    number, a string), and the store still reads back with that record
    at its end, the CSV export of the resulting store raises
    [AttributeError]. *)
Theorem upload_with_non_dict_weather_breaks_export (rt : Runtime) (ex : Exporters)
    (req : Request) (w : World) (l : list Measurement) (m : Measurement) :
  store w = Returned l ->
  store (snd (upload_file rt req w)) = Returned (l ++ [m])%list ->
  py_truthy (parse_weather rt (form_get "weather" req)) = true ->
  (forall d, parse_weather rt (form_get "weather" req) <> PyDict d) ->
  exists e,
    export_csv ex (snd (upload_file rt req w)) = (Raised e, snd (upload_file rt req w)) /\
    exc_class e = OtherException "AttributeError".
Proof.
  intros Hl Hafter Htruthy Hnodict.
  destruct (upload_file_stored_record rt req w l m Hl Hafter) as (Hweather & _).
  apply (export_csv_breaks ex (snd (upload_file rt req w)) (l ++ [m])%list Hafter).
  rewrite existsb_app. simpl. unfold weather_breaks_export.
  rewrite Hweather, Htruthy. simpl.
  destruct (parse_weather rt (form_get "weather" req)) eqn:E;
    try (rewrite ?orb_true_r; reflexivity).
  destruct (Hnodict d eq_refl).
Qed.

Lemma upload_with_non_dict_weather_breaks_export_witness :
  exists e,
    fst (export_csv DemoReaders.ex (snd (upload_file Demo.rt Demo.req_full Demo.world))) =
      Raised e /\
    exc_class e = OtherException "AttributeError".
Proof.
  destruct (upload_with_non_dict_weather_breaks_export Demo.rt DemoReaders.ex
              Demo.req_full Demo.world [] Demo.stored_full)
    as (e & Hexport & Hclass).
  - reflexivity.
  - vm_compute. reflexivity.
  - reflexivity.
  - intros d. vm_compute. discriminate.
  - exists e. rewrite Hexport. split; [ reflexivity | exact Hclass ].
Defined.

(** ** The routes in sequence *)

Lemma same_but_console_trans (w1 w2 w3 : World) :
  same_but_console w1 w2 -> same_but_console w2 w3 -> same_but_console w1 w3.
Proof.
  unfold same_but_console.
  intros (A1 & A2 & A3 & A4 & A5 & A6) (B1 & B2 & B3 & B4 & B5 & B6).
  repeat split; congruence.
Qed.

(** A reading route leaves everything but the console alone. *)
Lemma reader_keeps_world (rt : Runtime) (ex : Exporters) (v : Visit) (w : World) :
  runs_engine v = false -> same_but_console w (serve rt ex v w).
Proof.
  destruct v; simpl; try discriminate; intros _; unfold same_but_console; run_reader;
    try (repeat split; reflexivity).
  - destruct (store w) eqn:Hs; simpl; rewrite ?Hs; repeat split; reflexivity.
  - destruct (store w) eqn:Hs; simpl; rewrite ?Hs; repeat split; reflexivity.
  - destruct (store w) as [l | e] eqn:Hs; simpl;
      [ destruct (List.find _ l); simpl | ]; rewrite ?Hs; repeat split; reflexivity.
  - destruct (store w) as [l | e] eqn:Hs; simpl;
      [ destruct (write_data_rows l _); simpl | ]; rewrite ?Hs; repeat split; reflexivity.
  - destruct (store w) eqn:Hs; simpl; rewrite ?Hs; repeat split; reflexivity.
Qed.

(** Closes the part of [one_visit] about the store on a path that has
    left it as it was, added a record, or left it unreadable. *)
Ltac settle_visit k :=
  first
    [ left; reflexivity
    | right; left; eexists _, _, k; unfold written_by_app; simpl; repeat split; lia
    | right; right; eexists _, _; split; reflexivity ].

Lemma upload_file_one_visit (rt : Runtime) (req : Request) (w : World) :
  one_visit rt w (snd (upload_file rt req w)).
Proof.
  unfold one_visit.
  split_guards rt req; run_steps;
    try (split; [ lia | exists []; rewrite app_nil_r; simpl;
                        repeat split; [ lia | left; reflexivity ] ]).
  split_engine rt.
  - split; [ simpl; lia | ]. exists []. rewrite app_nil_r. simpl.
    repeat split; [ lia | left; reflexivity ].
  - split; [ simpl; lia | ]. exists []. rewrite app_nil_r. simpl.
    repeat split; [ lia | left; reflexivity ].
  - split_store rt w; (split; [ simpl; lia | ]); eexists [_];
      (split; [ reflexivity | ]); (split; [ simpl; lia | ]);
      settle_visit (S (uuid_count w)).
  - split; [ simpl; lia | ]. eexists [_]. repeat split; [ simpl; lia | left; reflexivity ].
Qed.

Lemma sample_one_visit (rt : Runtime) (w : World) :
  one_visit rt w (snd (sample rt w)).
Proof.
  unfold one_visit, sample. run_steps.
  split_engine rt.
  - split_store rt w; (split; [ simpl; lia | ]); eexists [_];
      (split; [ reflexivity | ]); (split; [ simpl; lia | ]);
      settle_visit (uuid_count w).
  - split; [ simpl; lia | ]. eexists [_]. repeat split; [ simpl; lia | left; reflexivity ].
Qed.

(** Every route is one visit; a reading route makes no engine call. *)
Lemma serve_one_visit (rt : Runtime) (ex : Exporters) (v : Visit) (w : World) :
  one_visit rt w (serve rt ex v w) /\
  (runs_engine v = false -> calls (serve rt ex v w) = calls w).
Proof.
  destruct (runs_engine v) eqn:Hv.
  - split; [ | discriminate ].
    destruct v; try discriminate Hv; simpl.
    + apply upload_file_one_visit.
    + apply sample_one_visit.
  - destruct (reader_keeps_world rt ex v w Hv) as (_ & Hs & _ & Hc & Hu & _).
    split; [ | intros _; exact Hc ].
    unfold one_visit. rewrite Hu. split; [ lia | ].
    exists []. rewrite app_nil_r. repeat split; [ exact Hc | simpl; lia | left; exact Hs ].
Qed.

(** X7: the reading routes ([index], [list_measurements], [show_map],
    [view_measurement], [export_options], [export_csv], [export_json],
    [share_measurement]) only ever print. After any sequence of visits
    to them the files, the store, the trace of engine calls, the draw
    counter and the clock are what they were. *)
Theorem reading_visits_touch_only_the_console (rt : Runtime) (ex : Exporters)
    (visits : list Visit) (w : World) :
  forallb (fun v => negb (runs_engine v)) visits = true ->
  same_but_console w (serve_all rt ex visits w).
Proof.
  unfold serve_all. revert w. induction visits as [| v visits IH]; intros w; simpl.
  - intros _. unfold same_but_console. repeat split.
  - intros Hall. apply andb_true_iff in Hall as [Hv Hrest].
    apply negb_true_iff in Hv.
    eapply same_but_console_trans; [ apply (reader_keeps_world rt ex v w Hv) | ].
    apply IH. exact Hrest.
Qed.

Lemma reading_visits_touch_only_the_console_witness :
  same_but_console DemoReaders.world_two
    (serve_all Demo.rt DemoReaders.ex DemoReaders.browse DemoReaders.world_two).
Proof.
  apply (reading_visits_touch_only_the_console Demo.rt DemoReaders.ex DemoReaders.browse
           DemoReaders.world_two).
  reflexivity.
Defined.

(** X8: over any sequence of visits, a store that cannot be read is never
    rewritten, there are no more engine calls than visits to the upload
    and sample routes, and as long as the store can still be read it has
    only grown at its end: it holds the records it held, in place,
    followed by no more new records than engine calls were made. *)
Theorem store_grows_only_after_engine_calls (rt : Runtime) (ex : Exporters)
    (visits : list Visit) (w : World) :
  (forall e, store w = Raised e -> store (serve_all rt ex visits w) = Raised e) /\
  exists cs,
    calls (serve_all rt ex visits w) = (calls w ++ cs)%list /\
    length cs <= length (List.filter runs_engine visits) /\
    forall l l',
      store w = Returned l ->
      store (serve_all rt ex visits w) = Returned l' ->
      exists added, l' = (l ++ added)%list /\ length added <= length cs.
Proof.
  unfold serve_all. revert w. induction visits as [| v visits IH]; intros w; simpl.
  - split; [ intros e He; exact He | ].
    exists []. rewrite app_nil_r. repeat split; [ simpl; lia | ].
    intros l l' Hl Hl'. rewrite Hl in Hl'. injection Hl' as <-.
    exists []. rewrite app_nil_r. split; [ reflexivity | simpl; lia ].
  - destruct (serve_one_visit rt ex v w) as ((_ & cs & Hcalls & Hlen & Hstore) & Hread).
    destruct (IH (serve rt ex v w)) as (IHraised & cs' & Hcalls' & Hlen' & IHreturned).
    assert (Hcs : length cs <= if runs_engine v then 1 else 0).
    { destruct (runs_engine v); [ exact Hlen | ].
      specialize (Hread eq_refl). rewrite Hread in Hcalls.
      rewrite <- (app_nil_r (calls w)) in Hcalls at 1.
      apply app_inv_head in Hcalls. subst cs. simpl. lia. }
    split.
    + intros e He. apply IHraised.
      destruct Hstore as [Hsame | [(l & m & k & Hl & _) | (l & e' & Hl & _)]]; congruence.
    + exists (cs ++ cs')%list. rewrite Hcalls', Hcalls, <- app_assoc.
      split; [ reflexivity | ].
      split; [ rewrite length_app; revert Hcs; destruct (runs_engine v); simpl; lia | ].
      intros l l' Hl Hl'.
      destruct Hstore as [Hsame | [(l0 & m & k & Hl0 & Hafter & Hone & _)
                                  | (l0 & e' & _ & Hbroken)]].
      * rewrite Hl in Hsame.
        destruct (IHreturned l l' Hsame Hl') as (added & -> & Ha).
        exists added. split; [ reflexivity | rewrite length_app; lia ].
      * rewrite Hl in Hl0. injection Hl0 as <-.
        destruct (IHreturned _ l' Hafter Hl') as (added & -> & Ha).
        exists (m :: added). rewrite <- app_assoc. simpl.
        split; [ reflexivity | rewrite length_app; lia ].
      * rewrite (IHraised e' Hbroken) in Hl'. discriminate Hl'.
Qed.

Lemma store_grows_only_after_engine_calls_witness :
  exists cs,
    calls (serve_all Demo.rt DemoReaders.ex DemoReaders.stroll Demo.world) = cs /\
    length cs <= 3 /\
    exists added,
      store (serve_all Demo.rt DemoReaders.ex DemoReaders.stroll Demo.world) =
        Returned added /\
      length added <= length cs.
Proof.
  destruct (proj2 (store_grows_only_after_engine_calls Demo.rt DemoReaders.ex
                     DemoReaders.stroll Demo.world))
    as (cs & Hcalls & Hcs & Hstore).
  exists cs. split; [ exact Hcalls | ]. split; [ exact Hcs | ].
  destruct (Hstore [] [Demo.stored_sample;
                       {| m_id := "uuid-2";
                          m_timestamp := "2024-05-01 12:00:00";
                          m_image_filename := "uuid-1.jpg";
                          m_output_filename := "output_image.jpg";
                          m_reference_size_mm := 30%float;
                          m_width_mm := PyStr placeholder;
                          m_height_mm := PyStr placeholder;
                          m_object_name := "Desk";
                          m_notes := "oak";
                          m_category := "furniture";
                          m_category_data := Some Demo.furniture;
                          m_latitude := Some 48.8584%float;
                          m_longitude := Some 2.2945%float;
                          m_accuracy := Some 12.5%float;
                          m_weather_data := PyList [PyInt 21; PyInt 65] |}]
              eq_refl ltac:(vm_compute; reflexivity))
    as (added & Heq & Hadded).
  exists added. split; [ | exact Hadded ].
  simpl in Heq. subst added. vm_compute. reflexivity.
Defined.

Lemma one_visit_keeps_ids (rt : Runtime) (w w' : World) :
  (forall i j, uuid_str rt i = uuid_str rt j -> i = j) ->
  one_visit rt w w' ->
  store_ids_drawn rt w /\ store_ids_distinct w ->
  store_ids_drawn rt w' /\ store_ids_distinct w'.
Proof.
  unfold store_ids_drawn, store_ids_distinct.
  intros Hinj (Hcount & cs & _ & _ & Hstore) (Hdrawn & Hdistinct).
  destruct Hstore as [Hsame | [(l & m & k & Hl & Hafter & _ & _ & Hid & Hk)
                              | (l & e & _ & Hbroken)]].
  - rewrite Hsame. split; [ | exact Hdistinct ].
    intros l Hl. apply (ids_drawn_mono rt (uuid_count w)); [ exact Hcount | auto ].
  - rewrite Hafter. split; intros l' [= <-].
    + apply (ids_drawn_snoc rt _ k); [ lia | exact Hid | ].
      apply (ids_drawn_mono rt (uuid_count w)); [ lia | auto ].
    + rewrite map_app. simpl. apply NoDup_app. split; [ auto | ]. split.
      * intros id Hin Hm. apply list_elem_of_In in Hin.
        apply list_elem_of_singleton in Hm. subst id. rewrite Hid in Hin.
        apply (ids_drawn_fresh rt (uuid_count w) k l Hinj (Hdrawn l Hl)) in Hin;
          [ exact Hin | lia ].
      * apply NoDup_singleton.
  - rewrite Hbroken. split; intros l' [= ].
Qed.

(** X9: as long as [uuid4] does not repeat itself, no two records of the
    store share an id, whatever the visits: ids that are distinct and
    come from draws already made stay so. *)
Theorem stored_ids_stay_distinct (rt : Runtime) (ex : Exporters) (visits : list Visit)
    (w : World) :
  (forall i j, uuid_str rt i = uuid_str rt j -> i = j) ->
  store_ids_drawn rt w ->
  store_ids_distinct w ->
  store_ids_drawn rt (serve_all rt ex visits w) /\
  store_ids_distinct (serve_all rt ex visits w).
Proof.
  intros Hinj. unfold serve_all. revert w.
  induction visits as [| v visits IH]; intros w Hdrawn Hdistinct; simpl.
  - split; assumption.
  - destruct (one_visit_keeps_ids rt w (serve rt ex v w) Hinj
                (proj1 (serve_one_visit rt ex v w)) (conj Hdrawn Hdistinct))
      as [Hdrawn' Hdistinct'].
    apply IH; assumption.
Qed.

Lemma stored_ids_stay_distinct_witness :
  exists l,
    store (serve_all Demo.rt DemoReaders.ex DemoReaders.stroll Demo.world) = Returned l /\
    map m_id l = ["uuid-0"; "uuid-2"] /\
    NoDup (map m_id l).
Proof.
  eexists. split; [ vm_compute; reflexivity | ]. split; [ reflexivity | ].
  apply (proj2 (stored_ids_stay_distinct Demo.rt DemoReaders.ex DemoReaders.stroll
                  Demo.world demo_uuid_inj
                  ltac:(intros l [= <-]; constructor)
                  ltac:(intros l [= <-]; constructor))).
  vm_compute. reflexivity.
Defined.

Lemma one_visit_keeps_written (rt : Runtime) (w w' : World) :
  one_visit rt w w' -> store_all written_by_app w -> store_all written_by_app w'.
Proof.
  unfold store_all.
  intros (_ & cs & _ & _ & Hstore) Hall.
  destruct Hstore as [Hsame | [(l & m & k & Hl & Hafter & _ & Hm & _)
                              | (l & e & _ & Hbroken)]].
  - rewrite Hsame. exact Hall.
  - rewrite Hafter. intros l' [= <-]. apply List.Forall_app. split; [ auto | ].
    constructor; [ exact Hm | constructor ].
  - rewrite Hbroken. intros l' [= ].
Qed.

(** X10: every record the application writes carries the placeholder for
    its measurements and the one artifact name, and visits keep the store
    that way; so whichever measurement is viewed, the page points at
    "/output_image.jpg" and shows "Calculated automatically" for width
    and height. *)
Theorem every_view_shows_the_shared_artifact (rt : Runtime) (ex : Exporters)
    (visits : list Visit) (w : World) :
  store_all written_by_app w ->
  store_all written_by_app (serve_all rt ex visits w) /\
  forall id,
    every_page (fst (view_measurement id (serve_all rt ex visits w)))
      (fun ctx => image_url ctx = "/output_image.jpg" /\
                  width ctx = PyStr placeholder /\ height ctx = PyStr placeholder).
Proof.
  intros Hall.
  assert (Hreach : store_all written_by_app (serve_all rt ex visits w)).
  { unfold serve_all. revert w Hall. induction visits as [| v visits IH]; intros w Hall; simpl.
    - exact Hall.
    - apply IH. apply (one_visit_keeps_written rt w); [ | exact Hall ].
      apply serve_one_visit. }
  split; [ exact Hreach | ].
  intros id t ctx. set (w' := serve_all rt ex visits w) in *.
  destruct (store w') as [l | e] eqn:Hstore.
  - destruct (List.find (fun x => m_id x =? id) l) as [m |] eqn:Hfind.
    + rewrite (view_measurement_found id w' l m Hstore Hfind). simpl.
      intros Hpage. inversion Hpage; subst; clear Hpage. simpl.
      apply find_some in Hfind as [Hin _].
      specialize (Hreach l Hstore). rewrite List.Forall_forall in Hreach.
      destruct (Hreach m Hin) as (Hw & Hh & Ho).
      rewrite Hw, Hh, Ho. repeat split.
    + rewrite (view_measurement_missing id w' l Hstore Hfind). simpl. discriminate.
  - rewrite (view_measurement_unreadable id w' e Hstore). simpl. discriminate.
Qed.

Lemma every_view_shows_the_shared_artifact_witness :
  exists ctx,
    fst (view_measurement "uuid-2"
           (serve_all Demo.rt DemoReaders.ex DemoReaders.stroll Demo.world)) =
      Returned (render_template_string RESULT_TEMPLATE ctx) /\
    object_name ctx = "Desk" /\
    image_url ctx = "/output_image.jpg" /\
    width ctx = PyStr placeholder /\ height ctx = PyStr placeholder.
Proof.
  eexists. split; [ vm_compute; reflexivity | ]. split; [ reflexivity | ].
  apply (proj2 (every_view_shows_the_shared_artifact Demo.rt DemoReaders.ex
                  DemoReaders.stroll Demo.world
                  ltac:(intros l [= <-]; constructor))
           "uuid-2" RESULT_TEMPLATE).
  vm_compute. reflexivity.
Defined.

(** X11: to the caller of [list_measurements], [show_map], [export_csv]
    and [export_json] a store that cannot be read looks like an empty
    one: the response is the response for the empty store, and the
    failure shows only as one printed line. *)
Theorem unreadable_store_reads_as_empty (rt : Runtime) (ex : Exporters) (w : World)
    (e : PyExc) :
  let broken := set_store (Raised e) w in
  let empty := set_store (Returned []) w in
  let line := "Error loading measurements: " +:+ exc_str e in
  (fst (list_measurements rt broken) = fst (list_measurements rt empty) /\
   console (snd (list_measurements rt broken)) = (console w ++ [line])%list) /\
  (fst (show_map broken) = fst (show_map empty) /\
   console (snd (show_map broken)) = (console w ++ [line])%list) /\
  (fst (export_csv ex broken) = fst (export_csv ex empty) /\
   console (snd (export_csv ex broken)) = (console w ++ [line])%list) /\
  (fst (export_json ex broken) = fst (export_json ex empty) /\
   console (snd (export_json ex broken)) = (console w ++ [line])%list).
Proof.
  repeat split.
Qed.

Lemma find_category_none (rt : Runtime) (c : string) :
  Forall (fun cat => cat_id cat <> c) (CATEGORIES rt) -> find_category rt c = None.
Proof.
  unfold find_category. induction (CATEGORIES rt) as [| x l IH]; simpl; [ reflexivity | ].
  intros Hall. inversion Hall as [| ? ? Hx Hl]; subst.
  apply String.eqb_neq in Hx. rewrite Hx. apply IH. exact Hl.
Qed.

Lemma find_category_first (rt : Runtime) (c : string) (before after : list Category)
    (cat : Category) :
  CATEGORIES rt = (before ++ cat :: after)%list ->
  Forall (fun x => cat_id x <> c) before ->
  cat_id cat = c ->
  find_category rt c = Some cat.
Proof.
  unfold find_category. intros -> Hbefore Hcat.
  induction before as [| x l IH]; simpl.
  - rewrite Hcat, String.eqb_refl. reflexivity.
  - inversion Hbefore as [| ? ? Hx Hl]; subst.
    apply String.eqb_neq in Hx. rewrite Hx. apply IH. exact Hl.
Qed.

(** X12: the page of an upload shows the name and colour of the first
    category whose id is the one sent (or "other" when none is sent), and
    "Other" without a colour when the installation has no such
    category. *)
Theorem upload_file_shows_first_matching_category (rt : Runtime) (req : Request)
    (w : World) (ctx : ResultContext) :
  fst (upload_file rt req w) = Returned (render_template_string RESULT_TEMPLATE ctx) ->
  (Forall (fun cat => cat_id cat <> form_get_default "category" "other" req)
     (CATEGORIES rt) ->
   category_color ctx = None /\ category_name ctx = "Other") /\
  (forall before cat after,
     CATEGORIES rt = (before ++ cat :: after)%list ->
     Forall (fun x => cat_id x <> form_get_default "category" "other" req) before ->
     cat_id cat = form_get_default "category" "other" req ->
     category_color ctx = Some (cat_color cat) /\ category_name ctx = cat_name cat).
Proof.
  split_guards rt req; run_steps; try discriminate.
  split_engine rt; try discriminate.
  split_store rt w; intros Hpage; inversion Hpage; subst ctx; clear Hpage; simpl;
    (split;
     [ intros Hnone; rewrite (find_category_none rt _ Hnone); split; reflexivity
     | intros before cat after Heq Hbefore Hcat;
       rewrite (find_category_first rt _ before after cat Heq Hbefore Hcat);
       split; reflexivity ]).
Qed.

Lemma upload_file_shows_first_matching_category_witness :
  (category_color DemoReaders.page_garden = None /\
   category_name DemoReaders.page_garden = "Other") /\
  (category_color Demo.page_full = Some "#4285F4" /\
   category_name Demo.page_full = "Furniture").
Proof.
  split.
  - apply (proj1 (upload_file_shows_first_matching_category Demo.rt DemoReaders.req_garden
                    Demo.world DemoReaders.page_garden ltac:(vm_compute; reflexivity))).
    repeat constructor; discriminate.
  - apply (proj2 (upload_file_shows_first_matching_category Demo.rt Demo.req_full
                    Demo.world Demo.page_full ltac:(vm_compute; reflexivity))
             [] Demo.furniture (tl DEFAULT_CATEGORIES)).
    + reflexivity.
    + constructor.
    + reflexivity.
Defined.

(** X13: the sample route is as silent as the upload route about its
    store. Its response never depends on the store; and when, after the
    engine has returned, the store cannot be read, or cannot be opened
    for writing, or its rewrite breaks off in the dump, the route prints
    one line and shows the page. No record is saved: what can be read
    from the store afterwards was there before, and a rewrite that broke
    off in the dump leaves a store that can no longer be read. *)
Theorem sample_persistence_failure_is_silent (rt : Runtime) (w : World)
    (o : EngineResult) (e : PyExc) :
  run_result (sample_engine_run rt w) = Returned o ->
  store w = Raised e \/
  (exists l, store w = Returned l /\
     (store_write_error w = Some (fails_at_open e) \/
      exists unreadable, store_write_error w = Some (fails_in_dump e unreadable))) ->
  (forall l, fst (sample rt w) = fst (sample rt (with_store l w))) /\
  (exists ctx, fst (sample rt w) =
     Returned (render_template_string RESULT_TEMPLATE ctx)) /\
  console (snd (sample rt w)) =
    (console w ++ run_stdout (sample_engine_run rt w) ++
     ["Error saving measurement data: " +:+ exc_str e])%list /\
  (forall l', store (snd (sample rt w)) = Returned l' -> store w = Returned l') /\
  (forall l unreadable,
     store w = Returned l ->
     store_write_error w = Some (fails_in_dump e unreadable) ->
     store (snd (sample rt w)) = Raised unreadable).
Proof.
  intros Hrun Hfault.
  unfold sample_engine_run in Hrun.
  split.
  { intros l0. clear Hfault. unfold sample. run_steps. rewrite Hrun. simpl.
    repeat rewrite skipn_kept. simpl. rewrite ?nesting_fault_sample. simpl.
    destruct (store w) as [l | e1]; simpl;
      [ destruct (store_write_error w) as [[e1 | e1 u] |]; simpl | ];
      repeat rewrite skipn_kept; simpl; rewrite ?nesting_fault_sample; reflexivity. }
  unfold sample. run_steps. rewrite Hrun. simpl.
  destruct Hfault as [Hstore | (l & Hstore & [Hwrite | (u & Hwrite)])];
    rewrite Hstore; simpl; rewrite ?Hwrite; simpl; rewrite ?Hstore.
  - split; [ eauto | ]. split; [ rewrite <- app_assoc; reflexivity | ].
    split; [ intros l' Hl'; exact Hl' | ].
    intros l u [= ].
  - split; [ eauto | ]. split; [ rewrite <- app_assoc; reflexivity | ].
    split; [ intros l' Hl'; exact Hl' | ].
    intros l0 u _ [= ].
  - split; [ eauto | ]. split; [ rewrite <- app_assoc; reflexivity | ].
    split; [ intros l' [= ] | ].
    intros l0 u' _ [= <-]. reflexivity.
Qed.

Lemma sample_persistence_failure_is_silent_witness :
  fst (sample Demo.rt Demo.world_readonly) = fst (sample Demo.rt Demo.world) /\
  console (snd (sample Demo.rt Demo.world_readonly)) =
    ["Error saving measurement data: Permission denied"] /\
  store (snd (sample Demo.rt Demo.world_disk_full)) =
    Raised {| exc_class := ValueError; exc_str := "Expecting value" |}.
Proof.
  split; [ | split ].
  - apply (proj1 (sample_persistence_failure_is_silent Demo.rt Demo.world_readonly
             (MeasurementResult 48.52%float 24.26%float)
             {| exc_class := OtherException "PermissionError";
                exc_str := "Permission denied" |}
             ltac:(vm_compute; reflexivity)
             ltac:(right; exists []; split; [ reflexivity | left; reflexivity ])) []).
  - rewrite (proj1 (proj2 (proj2 (sample_persistence_failure_is_silent Demo.rt
             Demo.world_readonly
             (MeasurementResult 48.52%float 24.26%float)
             {| exc_class := OtherException "PermissionError";
                exc_str := "Permission denied" |}
             ltac:(vm_compute; reflexivity)
             ltac:(right; exists []; split; [ reflexivity | left; reflexivity ]))))).
    vm_compute. reflexivity.
  - apply (proj2 (proj2 (proj2 (proj2 (sample_persistence_failure_is_silent Demo.rt
             Demo.world_disk_full
             (MeasurementResult 48.52%float 24.26%float)
             {| exc_class := OtherException "OSError";
                exc_str := "[Errno 28] No space left on device" |}
             ltac:(vm_compute; reflexivity)
             ltac:(right; exists []; split; [ reflexivity | right; eexists; reflexivity ])))))
             [] _ eq_refl eq_refl).
Defined.
